(** * Recipe generation Lambda: a shallow embedding of
      [backend/generate-recipe/lambda_function.py]

    The handler is dynamically typed Python working on values decoded
    from JSON.  The embedding therefore has four layers:

    - the Python run time: text ([str], a sequence of code points),
      values, exceptions, insertion-ordered dictionaries, truthiness,
      [str.find], [str.rfind], slicing and [str.join];
    - the [json], [uuid] and [datetime] library calls the code makes;
    - the class [RecipeGenerator] ([_build_prompt],
      [_parse_recipe_response], [_create_fallback_recipe],
      [generate_recipe]);
    - [lambda_handler], with the two collaborators (the inference
      endpoint and the record store) as oracles of a [world] and the
      calls made to them recorded in a trace.

    Logging, metrics and tracing do not influence any returned value and
    are left out.  Two limits of the interpreter that [json.loads] can
    hit, the digit limit of [int] and the recursion limit, are
    parameters of the development; running out of memory is not
    modelled. *)

From Stdlib Require Import String Ascii DecimalString Bool ZArith NArith Lia List.
Import ListNotations.

Local Open Scope N_scope.

(* ===================================================================== *)
(** ** Text *)
(* ===================================================================== *)

(** A Python [str] is a sequence of Unicode code points. *)
Definition str := list N.

Definition ord (a : ascii) : N := N_of_ascii a.

(** [py "..."] is the [str] written by an ASCII literal of the source. *)
Definition py (s : string) : str := map ord (list_ascii_of_string s).

(** [pyq "..."] is [py "..."] with every apostrophe standing for a double
    quote, so that literals of the source that contain double quotes can
    be written down. *)
Definition pyq (s : string) : str :=
  map (fun c => if c =? 39 then 34 else c) (py s).

Definition nl : N := 10.

Fixpoint str_eqb (a b : str) : bool :=
  match a, b with
  | [], [] => true
  | x :: a', y :: b' => (x =? y) && str_eqb a' b'
  | _, _ => false
  end.

(** [s.startswith(p)] *)
Fixpoint startswith (p s : str) : bool :=
  match p, s with
  | [], _ => true
  | x :: p', y :: s' => (x =? y) && startswith p' s'
  | _ :: _, [] => false
  end.

(** [sep.join(parts)] for parts that are already known to be text. *)
Fixpoint join (sep : str) (parts : list str) : str :=
  match parts with
  | [] => []
  | [p] => p
  | p :: rest => p ++ sep ++ join sep rest
  end.

(** [s.find(c)] for a one-character needle: the least index holding [c],
    or [-1]. *)
Fixpoint find_from (c : N) (s : str) (i : Z) : Z :=
  match s with
  | [] => (-1)%Z
  | x :: r => if x =? c then i else find_from c r (i + 1)%Z
  end.

Definition find (c : N) (s : str) : Z := find_from c s 0.

(** [s.rfind(c)]: the greatest index holding [c], or [-1]. *)
Fixpoint rfind_from (c : N) (s : str) (i last : Z) : Z :=
  match s with
  | [] => last
  | x :: r => rfind_from c r (i + 1)%Z (if x =? c then i else last)
  end.

Definition rfind (c : N) (s : str) : Z := rfind_from c s 0 (-1).

(** Slice bounds as Python normalises them: a negative index counts from
    the end, and the result is clipped to [0 .. len]. *)
Definition clip_index (len i : Z) : Z :=
  let i' := if (i <? 0)%Z then (i + len)%Z else i in
  Z.max 0 (Z.min len i').

(** [s[i:j]] *)
Definition py_slice (s : str) (i j : Z) : str :=
  let len := Z.of_nat (length s) in
  let a := clip_index len i in
  let b := clip_index len j in
  firstn (Z.to_nat (b - a)) (skipn (Z.to_nat a) s).

(** The lines of a text: the pieces between line feeds. *)
Fixpoint lines (s : str) : list str :=
  match s with
  | [] => [[]]
  | c :: r =>
      if c =? nl then [] :: lines r
      else match lines r with
           | l :: ls => (c :: l) :: ls
           | [] => [[c]]
           end
  end.

(** Decimal numerals, as [int.__repr__] prints them. *)
Definition dec_of_Z (z : Z) : str := py (NilEmpty.string_of_int (Z.to_int z)).

Definition hex_digit (d : N) : N :=
  if d <? 10 then 48 + d else 87 + d.

(** [k] lower-case hexadecimal digits of [n], most significant first
    (the [%0kx] and [{:04x}] formats for numbers below [16^k]). *)
Fixpoint hex_fixed (k : nat) (n : N) : str :=
  match k with
  | O => []
  | S k' => hex_fixed k' (n / 16) ++ [hex_digit (n mod 16)]
  end.

(** [%0kd] for a natural number: decimal, left-padded with zeros to at
    least [k] digits. *)
Definition dec_padded (k : nat) (n : N) : str :=
  let d := dec_of_Z (Z.of_N n) in
  repeat 48 (k - length d) ++ d.

(* ===================================================================== *)
(** ** Values, exceptions, dictionaries *)
(* ===================================================================== *)

(** The values the program handles are those [json.loads] produces.  A
    [float] is kept as the numeral it was read from; what the
    interpreter computes from such a numeral is a parameter of the
    development (see [Section Program]). *)
#[warnings="-register-all"]
Inductive value : Type :=
| VNone
| VBool (b : bool)
| VInt (z : Z)
| VFloat (numeral : str)
| VStr (s : str)
| VList (items : list value)
| VDict (entries : list (str * value)).

Definition dict := list (str * value).

Inductive exn : Type :=
| JSONDecodeError
| ValueError
| TypeError
| KeyError
| IndexError
| AttributeError
| RecursionError
| ServiceError (code : N).   (* raised by a collaborator *)

Inductive result (A : Type) : Type :=
| Ok (a : A)
| Raise (e : exn).
Arguments Ok {A} a.
Arguments Raise {A} e.

Definition bind {A B} (m : result A) (k : A -> result B) : result B :=
  match m with
  | Ok a => k a
  | Raise e => Raise e
  end.

Declare Scope py_scope.
Delimit Scope py_scope with py.
Notation "x <- m ;; k" := (bind m (fun x => k))
  (at level 61, m at next level, right associativity) : py_scope.
Local Open Scope py_scope.

(** [d.get(k)], [None] standing for "no such key". *)
Fixpoint dict_get (d : dict) (k : str) : option value :=
  match d with
  | [] => None
  | (k', v) :: r => if str_eqb k' k then Some v else dict_get r k
  end.

(** [d[k] = v]: an existing key keeps its position, a new key goes last. *)
Fixpoint dict_set (d : dict) (k : str) (v : value) : dict :=
  match d with
  | [] => [(k, v)]
  | (k', v') :: r =>
      if str_eqb k' k then (k', v) :: r else (k', v') :: dict_set r k v
  end.

(** [dict(pairs)] *)
Definition dict_of_pairs (ps : list (str * value)) : dict :=
  fold_left (fun d kv => dict_set d (fst kv) (snd kv)) ps [].

(** [d.get(k, default)] *)
Definition dict_get_default (d : dict) (k : str) (default : value) : value :=
  match dict_get d k with
  | Some v => v
  | None => default
  end.

(** [v.get(k, default)] on an arbitrary value: only a dict has [get]. *)
Definition py_get (v : value) (k : str) (default : value) : result value :=
  match v with
  | VDict d => Ok (dict_get_default d k default)
  | _ => Raise AttributeError
  end.

(** [v[k]] with a text key. *)
Definition subscript_key (v : value) (k : str) : result value :=
  match v with
  | VDict d => match dict_get d k with
               | Some x => Ok x
               | None => Raise KeyError
               end
  | _ => Raise TypeError
  end.

(** [v[0]] *)
Definition subscript_0 (v : value) : result value :=
  match v with
  | VList (x :: _) => Ok x
  | VList [] => Raise IndexError
  | VStr (c :: _) => Ok (VStr [c])
  | VStr [] => Raise IndexError
  | VDict _ => Raise KeyError        (* keys decoded from JSON are text *)
  | _ => Raise TypeError
  end.

(* ===================================================================== *)
(** ** [json.loads] *)
(* ===================================================================== *)

(** The decoder follows CPython's [json.decoder] and [json.scanner]: a
    recursive descent over the text.  Code points used below:
    34 double quote, 92 backslash, 47 slash, 123/125 braces, 91/93
    brackets, 44 comma, 58 colon, 45 minus, 43 plus, 46 dot, 48..57
    digits, 101/69 e/E, 117 u. *)

Definition is_ws (c : N) : bool :=
  (c =? 32) || (c =? 9) || (c =? 10) || (c =? 13).

Fixpoint skip_ws (s : str) : str :=
  match s with
  | c :: r => if is_ws c then skip_ws r else s
  | [] => []
  end.

Definition is_digit (c : N) : bool := (48 <=? c) && (c <=? 57).

Definition hex_val (c : N) : option N :=
  if is_digit c then Some (c - 48)
  else if (97 <=? c) && (c <=? 102) then Some (c - 87)
  else if (65 <=? c) && (c <=? 70) then Some (c - 55)
  else None.

Definition hex4 (a b c d : N) : option N :=
  match hex_val a, hex_val b, hex_val c, hex_val d with
  | Some x, Some y, Some z, Some w => Some (((x * 16 + y) * 16 + z) * 16 + w)
  | _, _, _, _ => None
  end.

Definition is_high_surrogate (u : N) : bool := (55296 <=? u) && (u <=? 56319).
Definition is_low_surrogate (u : N) : bool := (56320 <=? u) && (u <=? 57343).
Definition join_surrogates (hi lo : N) : N :=
  65536 + (hi - 55296) * 1024 + (lo - 56320).

(** The character a one-letter escape stands for. *)
Definition simple_escape (e : N) : option N :=
  if e =? 34 then Some 34
  else if e =? 92 then Some 92
  else if e =? 47 then Some 47
  else if e =? 98 then Some 8
  else if e =? 102 then Some 12
  else if e =? 110 then Some 10
  else if e =? 114 then Some 13
  else if e =? 116 then Some 9
  else None.

Definition push_char (c : N) (r : option (str * str)) : option (str * str) :=
  match r with
  | Some (x, rest) => Some (c :: x, rest)
  | None => None
  end.

(** [scanstring], strict mode, entered just after the opening quote:
    the decoded text and what follows the closing quote.  [None] is a
    [JSONDecodeError] (unterminated string, control character, bad
    escape). *)
Fixpoint scanstring (s : str) : option (str * str) :=
  match s with
  | [] => None
  | c :: r =>
      if c =? 34 then Some ([], r)
      else if c =? 92 then
        match r with
        | [] => None
        | e :: r1 =>
            if e =? 117 then
              match r1 with
              | h1 :: h2 :: h3 :: h4 :: r2 =>
                  match hex4 h1 h2 h3 h4 with
                  | None => None
                  | Some u =>
                      match r2 with
                      | b :: x :: l1 :: l2 :: l3 :: l4 :: r3 =>
                          if is_high_surrogate u && (b =? 92) && (x =? 117) then
                            match hex4 l1 l2 l3 l4 with
                            | Some lo =>
                                if is_low_surrogate lo
                                then push_char (join_surrogates u lo) (scanstring r3)
                                else push_char u (scanstring r2)
                            | None => None
                            end
                          else push_char u (scanstring r2)
                      | _ => push_char u (scanstring r2)
                      end
                  end
              | _ => None
              end
            else
              match simple_escape e with
              | Some x => push_char x (scanstring r1)
              | None => None
              end
        end
      else if c <? 32 then None
      else push_char c (scanstring r)
  end.

Fixpoint span_digits (s : str) : str * str :=
  match s with
  | c :: r =>
      if is_digit c then let (d, t) := span_digits r in (c :: d, t)
      else ([], s)
  | [] => ([], [])
  end.

Definition nat_of_digits (ds : str) : Z :=
  fold_left (fun acc d => (acc * 10 + Z.of_N (d - 48))%Z) ds 0%Z.

(** The integer part of a number: an optional minus sign, then either a
    single 0 or a non-zero digit followed by any digits. *)
Definition scan_int_part (s : str) : option (bool * str * str) :=
  let (neg, s1) :=
    match s with
    | c :: r => if c =? 45 then (true, r) else (false, s)
    | [] => (false, s)
    end in
  match s1 with
  | [] => None
  | c :: r =>
      if c =? 48 then Some (neg, [48], r)
      else if is_digit c then
        let (d, t) := span_digits r in Some (neg, c :: d, t)
      else None
  end.

(** The optional fraction: a dot and at least one digit. *)
Definition scan_frac (s : str) : str * str :=
  match s with
  | c :: r =>
      if c =? 46 then
        match span_digits r with
        | ([], _) => ([], s)
        | (d, t) => (c :: d, t)
        end
      else ([], s)
  | [] => ([], s)
  end.

(** The optional exponent: e or E, an optional sign, at least one digit. *)
Definition scan_exp (s : str) : str * str :=
  match s with
  | e :: r =>
      if (e =? 101) || (e =? 69) then
        let (sg, r') :=
          match r with
          | c :: r'' => if (c =? 43) || (c =? 45) then ([c], r'') else ([], r)
          | [] => ([], r)
          end in
        match span_digits r' with
        | ([], _) => ([], s)
        | (d, t) => (e :: sg ++ d, t)
        end
      else ([], s)
  | [] => ([], s)
  end.

(** The outcome of scanning.  [Failed e]: the decoder raises [e]
    ([JSONDecodeError] for text that is not JSON, [ValueError] for an
    integer of too many digits, [RecursionError] for containers nested
    deeper than the interpreter allows).  [Exhausted]: the fuel of the
    definition ran out, which does not happen ([scan_budget]). *)
Inductive scan (A : Type) : Type :=
| Scanned (a : A) (rest : str)
| Failed (e : exn)
| Exhausted.
Arguments Scanned {A} a rest.
Arguments Failed {A} e.
Arguments Exhausted {A}.

Section Decoder.

(** [sys.get_int_max_str_digits()]: the limit CPython puts on the number
    of digits of an integer read from text (4300 unless configured);
    0 stands for no limit, which is also the case of interpreters that
    predate the limit. *)
Variable max_str_digits : N.

(** [int(text)] for [n] digits: refused with a [ValueError] when [n]
    exceeds the limit; a text of at most 640 digits is never refused. *)
Definition digits_exceed (n : nat) : bool :=
  (640 <? N.of_nat n) && (0 <? max_str_digits) && (max_str_digits <? N.of_nat n).

(** A number: an [int] when it has neither fraction nor exponent,
    otherwise a [float] (kept as its numeral).  [None]: no number here;
    [Raise ValueError]: an integer of too many digits. *)
Definition match_number (s : str) : option (result value * str) :=
  match scan_int_part s with
  | None => None
  | Some (neg, digits, s2) =>
      let (frac, s3) := scan_frac s2 in
      let (exp, s4) := scan_exp s3 in
      match frac, exp with
      | [], [] =>
          if digits_exceed (length digits) then Some (Raise ValueError, s4)
          else
            let n := nat_of_digits digits in
            Some (Ok (VInt (if neg then (- n)%Z else n)), s4)
      | _, _ =>
          Some (Ok (VFloat ((if neg then [45] else []) ++ digits ++ frac ++ exp)),
                s4)
      end
  end.

(** If [s] starts with the word [w], what follows it. *)
Fixpoint after_word (w s : str) : option str :=
  match w, s with
  | [], _ => Some s
  | x :: w', y :: s' => if x =? y then after_word w' s' else None
  | _ :: _, [] => None
  end.

(** Constants and numbers: everything that is neither a string, an
    object nor an array. *)
Definition scan_atom (s : str) : scan value :=
  match after_word (py "null") s with
  | Some r => Scanned VNone r
  | None =>
  match after_word (py "true") s with
  | Some r => Scanned (VBool true) r
  | None =>
  match after_word (py "false") s with
  | Some r => Scanned (VBool false) r
  | None =>
  match match_number s with
  | Some (Ok v, r) => Scanned v r
  | Some (Raise e, _) => Failed e
  | None =>
  match after_word (py "NaN") s with
  | Some r => Scanned (VFloat (py "NaN")) r
  | None =>
  match after_word (py "Infinity") s with
  | Some r => Scanned (VFloat (py "Infinity")) r
  | None =>
  match after_word (py "-Infinity") s with
  | Some r => Scanned (VFloat (py "-Infinity")) r
  | None => Failed JSONDecodeError
  end end end end end end end.

(** [scan_once]: one JSON value at the head of [s].
    [scan_members] reads [key: value] pairs up to the closing brace and
    is entered at the opening quote of a key; [scan_items] reads array
    items up to the closing bracket.  [depth] is the number of
    containers that may still be entered: CPython enters a recursive
    call for every object and array and raises [RecursionError] when
    none is left.  Every nested value and every further pair or item
    spends one unit of [fuel]. *)
Fixpoint scan_once (fuel depth : nat) (s : str) : scan value :=
  match fuel with
  | O => Exhausted
  | S f =>
      match s with
      | [] => Failed JSONDecodeError
      | c :: r =>
          if c =? 34 then
            match scanstring r with
            | Some (x, r') => Scanned (VStr x) r'
            | None => Failed JSONDecodeError
            end
          else if c =? 123 then
            match depth with
            | O => Failed RecursionError
            | S d =>
                match skip_ws r with
                | c1 :: r1 =>
                    if c1 =? 125 then Scanned (VDict []) r1
                    else if c1 =? 34 then
                      match scan_members f d (c1 :: r1) with
                      | Scanned ps r2 => Scanned (VDict (dict_of_pairs ps)) r2
                      | Failed e => Failed e
                      | Exhausted => Exhausted
                      end
                    else Failed JSONDecodeError
                | [] => Failed JSONDecodeError
                end
            end
          else if c =? 91 then
            match depth with
            | O => Failed RecursionError
            | S d =>
                match skip_ws r with
                | c1 :: r1 =>
                    if c1 =? 93 then Scanned (VList []) r1
                    else
                      match scan_items f d (c1 :: r1) with
                      | Scanned vs r2 => Scanned (VList vs) r2
                      | Failed e => Failed e
                      | Exhausted => Exhausted
                      end
                | [] => Failed JSONDecodeError
                end
            end
          else scan_atom s
      end
  end

with scan_members (fuel depth : nat) (s : str) : scan (list (str * value)) :=
  match fuel with
  | O => Exhausted
  | S f =>
      match s with
      | [] => Failed JSONDecodeError
      | q :: r =>
          if q =? 34 then
            match scanstring r with
            | None => Failed JSONDecodeError
            | Some (key, r1) =>
                match skip_ws r1 with
                | c :: r2 =>
                    if c =? 58 then
                      match scan_once f depth (skip_ws r2) with
                      | Scanned v r3 =>
                          match skip_ws r3 with
                          | d :: r4 =>
                              if d =? 125 then Scanned [(key, v)] r4
                              else if d =? 44 then
                                match scan_members f depth (skip_ws r4) with
                                | Scanned ps r5 => Scanned ((key, v) :: ps) r5
                                | Failed e => Failed e
                                | Exhausted => Exhausted
                                end
                              else Failed JSONDecodeError
                          | [] => Failed JSONDecodeError
                          end
                      | Failed e => Failed e
                      | Exhausted => Exhausted
                      end
                    else Failed JSONDecodeError
                | [] => Failed JSONDecodeError
                end
            end
          else Failed JSONDecodeError
      end
  end

with scan_items (fuel depth : nat) (s : str) : scan (list value) :=
  match fuel with
  | O => Exhausted
  | S f =>
      match scan_once f depth s with
      | Scanned v r1 =>
          match skip_ws r1 with
          | d :: r2 =>
              if d =? 93 then Scanned [v] r2
              else if d =? 44 then
                match scan_items f depth (skip_ws r2) with
                | Scanned vs r3 => Scanned (v :: vs) r3
                | Failed e => Failed e
                | Exhausted => Exhausted
                end
              else Failed JSONDecodeError
          | [] => Failed JSONDecodeError
          end
      | Failed e => Failed e
      | Exhausted => Exhausted
      end
  end.

(** [json.loads(s)] for text [s] with [depth] containers of recursion
    left: no byte-order mark, one value, and nothing but white space
    after it.  The fuel handed to the scanner exceeds twice the length
    of the text, which is always enough ([json_loads_result]). *)
Definition json_decode (depth : nat) (s : str) : result value :=
  if startswith [65279] s then Raise JSONDecodeError
  else
    match scan_once (S (2 * length s)) depth (skip_ws s) with
    | Scanned v rest =>
        match skip_ws rest with
        | [] => Ok v
        | _ :: _ => Raise JSONDecodeError
        end
    | Failed e => Raise e
    | Exhausted => Raise RecursionError
    end.

End Decoder.

(** The three places where the program decodes JSON: the request body
    in [lambda_handler], the response body in [generate_recipe], the
    slice in [_parse_recipe_response].  They run at different depths of
    the call stack, so each has its own recursion headroom. *)
Inductive call_site : Type := BodyDecode | ReplyDecode | SliceDecode.

(* ===================================================================== *)
(** ** [uuid.uuid4] and [datetime.utcnow().isoformat()] *)
(* ===================================================================== *)

(** [uuid.uuid4()] draws 16 random bytes and stamps the variant and the
    version (4) into them; [r] is the draw, read as an integer. *)
Definition uuid4_int (r : N) : N :=
  let i := r mod 2 ^ 128 in
  let i := N.ldiff i (N.shiftl 49152 48) in
  let i := N.lor i (N.shiftl 32768 48) in
  let i := N.ldiff i (N.shiftl 61440 64) in
  N.lor i (N.shiftl 4 76).

(** [str(u)]: 32 hexadecimal digits grouped 8-4-4-4-12. *)
Definition uuid_str (i : N) : str :=
  let hex := hex_fixed 32 i in
  firstn 8 hex ++ py "-" ++ firstn 4 (skipn 8 hex) ++ py "-"
  ++ firstn 4 (skipn 12 hex) ++ py "-" ++ firstn 4 (skipn 16 hex) ++ py "-"
  ++ skipn 20 hex.

Record datetime : Type := {
  year : N; month : N; day : N;
  hour : N; minute : N; second : N; microsecond : N
}.

(** [d.isoformat()] of a naive datetime: [YYYY-MM-DDTHH:MM:SS], followed
    by [.ffffff] when the microseconds are not zero. *)
Definition isoformat (d : datetime) : str :=
  dec_padded 4 (year d) ++ py "-" ++ dec_padded 2 (month d) ++ py "-"
  ++ dec_padded 2 (day d) ++ py "T" ++ dec_padded 2 (hour d) ++ py ":"
  ++ dec_padded 2 (minute d) ++ py ":" ++ dec_padded 2 (second d)
  ++ (if microsecond d =? 0 then [] else py "." ++ dec_padded 6 (microsecond d)).

(* ===================================================================== *)
(** ** The world of one invocation *)
(* ===================================================================== *)

(** Calls made to the two collaborators, in order. *)
Inductive event : Type :=
| InvokeModel (modelId : str) (body : str)   (* bedrock_runtime.invoke_model *)
| PutItem (item : value).                    (* table.put_item *)

Definition trace := list event.

(** What one invocation takes from outside: the configured model id,
    the random draw behind [uuid4], the clock, and the behaviour of the
    collaborators.  [invoke_model] answers with the text of the
    response body or raises; [put_item] stores or raises. *)
Record world : Type := {
  model_id : str;
  urandom : N;
  utcnow : datetime;
  invoke_model : str -> str -> result str;
  put_item : value -> result unit
}.

Definition with_put_item (w : world) (p : value -> result unit) : world :=
  {| model_id := model_id w; urandom := urandom w; utcnow := utcnow w;
     invoke_model := invoke_model w; put_item := p |}.

Record response : Type := {
  statusCode : Z;
  headers : list (str * str);
  body : str
}.

(** The request of the specification's data model. *)
Record RecipeRequest : Type := {
  ingredients : list str;
  dietaryRestrictions : list str;
  cuisineType : option str;
  mealType : option str;
  difficulty : str
}.

Definition optional_text (o : option str) : value :=
  match o with
  | Some s => VStr s
  | None => VNone
  end.

(** [concat] of the lines, each followed by a line feed. *)
Definition unlines (ls : list str) : str := concat (map (fun l => l ++ [nl]) ls).

(** Text contained in a text. *)
Definition contains (x s : str) : Prop := exists a b, s = a ++ x ++ b.

(** Some line of [s] begins with [label]. *)
Definition has_line (label s : str) : bool :=
  existsb (startswith label) (lines s).

Definition no_newline (s : str) : Prop := ~ In nl s.

(* ===================================================================== *)
(** ** The program *)
(* ===================================================================== *)

Section Program.

(** Three facts about the interpreter are parameters, because they rest
    on binary floating point or on [repr] of containers:
    whether the float read from a numeral is zero, the text
    [json.dumps] prints for it, and [format(v, '')] for a value that is
    not text (an f-string field of text is the text itself). *)
Variable float_is_zero : str -> bool.
Variable float_dumps : str -> str.
Variable py_format : value -> str.

(** Two limits of the interpreter are parameters as well: the digit
    limit of [int], and for each place where JSON is decoded the
    number of containers that can be entered beyond the first before
    the recursion limit is hit (the available depth is one more than
    this headroom: a flat object or array always decodes). *)
Variable int_max_str_digits : N.
Variable recursion_headroom : call_site -> nat.

(** [json.loads(s)] for text [s], called at [site]. *)
Definition json_loads (site : call_site) (s : str) : result value :=
  json_decode int_max_str_digits (S (recursion_headroom site)) s.

(** [json.loads(v)] for an arbitrary value: anything but text is a
    [TypeError]. *)
Definition loads (site : call_site) (v : value) : result value :=
  match v with
  | VStr s => json_loads site s
  | _ => Raise TypeError
  end.

(** Truth value of a value, as [if v:] and [not v] take it. *)
Definition truthy (v : value) : bool :=
  match v with
  | VNone => false
  | VBool b => b
  | VInt z => negb (z =? 0)%Z
  | VFloat x => negb (float_is_zero x)
  | VStr [] => false
  | VStr (_ :: _) => true
  | VList [] => false
  | VList (_ :: _) => true
  | VDict [] => false
  | VDict (_ :: _) => true
  end.

(** [f"{v}"] *)
Definition format (v : value) : str :=
  match v with
  | VStr s => s
  | _ => py_format v
  end.

(** The items of a list, which [str.join] requires to be text. *)
Fixpoint texts (items : list value) : result (list str) :=
  match items with
  | [] => Ok []
  | VStr s :: r => ps <- texts r ;; Ok (s :: ps)
  | _ :: _ => Raise TypeError
  end.

(** [sep.join(v)]: [v] is iterated (a list gives its items, text its
    characters, a dict its keys; nothing else is iterable). *)
Definition str_join (sep : str) (v : value) : result str :=
  match v with
  | VList items => ps <- texts items ;; Ok (join sep ps)
  | VStr s => Ok (join sep (map (fun c => [c]) s))
  | VDict d => Ok (join sep (map fst d))
  | _ => Raise TypeError
  end.

(** [v[k] = x] *)
Definition setitem (v : value) (k : str) (x : value) : result value :=
  match v with
  | VDict d => Ok (VDict (dict_set d k x))
  | _ => Raise TypeError
  end.

(** *** [json.dumps] with its defaults *)

Definition escape_char (c : N) : str :=
  if c =? 34 then [92; 34]
  else if c =? 92 then [92; 92]
  else if c =? 10 then [92; 110]
  else if c =? 13 then [92; 114]
  else if c =? 9 then [92; 116]
  else if c =? 8 then [92; 98]
  else if c =? 12 then [92; 102]
  else if (32 <=? c) && (c <=? 126) then [c]
  else if c <? 65536 then [92; 117] ++ hex_fixed 4 c
  else
    let n := c - 65536 in
    [92; 117] ++ hex_fixed 4 (N.lor 55296 (N.land (N.shiftr n 10) 1023))
    ++ [92; 117] ++ hex_fixed 4 (N.lor 56320 (N.land n 1023)).

(** Text as a JSON string, [ensure_ascii] on. *)
Definition encode_str (s : str) : str :=
  [34] ++ concat (map escape_char s) ++ [34].

Fixpoint json_dumps (v : value) : str :=
  match v with
  | VNone => py "null"
  | VBool true => py "true"
  | VBool false => py "false"
  | VInt z => dec_of_Z z
  | VFloat x => float_dumps x
  | VStr s => encode_str s
  | VList items => py "[" ++ join (py ", ") (map json_dumps items) ++ py "]"
  | VDict d =>
      py "{"
      ++ join (py ", ")
           (map (fun kv => encode_str (fst kv) ++ py ": " ++ json_dumps (snd kv)) d)
      ++ py "}"
  end.

(** *** [class RecipeGenerator] *)

(** The closing part of the prompt, line by line ([pyq]: apostrophes
    stand for the double quotes of the source). *)
Definition prompt_footer_lines : list str := [
  pyq "";
  pyq "Please provide the recipe in the following JSON format:";
  pyq "{";
  pyq "    'title': 'Recipe Name',";
  pyq "    'description': 'Brief description of the dish',";
  pyq "    'prep_time': '15 minutes',";
  pyq "    'cook_time': '30 minutes',";
  pyq "    'total_time': '45 minutes',";
  pyq "    'servings': 4,";
  pyq "    'difficulty': 'medium',";
  pyq "    'cuisine': 'cuisine type',";
  pyq "    'ingredients': [";
  pyq "        {";
  pyq "            'item': 'ingredient name',";
  pyq "            'amount': '1 cup',";
  pyq "            'notes': 'optional preparation notes'";
  pyq "        }";
  pyq "    ],";
  pyq "    'instructions': [";
  pyq "        'Step 1: Detailed instruction',";
  pyq "        'Step 2: Another detailed instruction'";
  pyq "    ],";
  pyq "    'nutrition': {";
  pyq "        'calories': 350,";
  pyq "        'protein': '25g',";
  pyq "        'carbs': '30g',";
  pyq "        'fat': '15g'";
  pyq "    },";
  pyq "    'tags': ['tag1', 'tag2', 'tag3'],";
  pyq "    'tips': ['Cooking tip 1', 'Cooking tip 2']";
  pyq "}";
  pyq "";
  pyq "Please ensure all ingredients from the input list are used in the recipe where possible."
].

Definition prompt_footer : str := unlines prompt_footer_lines.

Definition dietary_label : str := py "- Dietary restrictions: ".
Definition cuisine_label : str := py "- Cuisine type: ".
Definition meal_label : str := py "- Meal type: ".
Definition difficulty_label : str := py "- Difficulty level: ".

(** [RecipeGenerator._build_prompt] *)
Definition _build_prompt
    (ingredients dietary_restrictions cuisine_type meal_type difficulty : value)
    : result str :=
  ingredients_str <- str_join (py ", ") ingredients ;;
  let prompt :=
    unlines [
      py "Generate a detailed recipe using the following ingredients: "
        ++ ingredients_str;
      py "";
      py "Requirements:";
      difficulty_label ++ format difficulty
    ] in
  prompt <-
    (if truthy dietary_restrictions then
       restrictions_str <- str_join (py ", ") dietary_restrictions ;;
       Ok (prompt ++ dietary_label ++ restrictions_str ++ [nl])
     else Ok prompt) ;;
  let prompt :=
    if truthy cuisine_type
    then prompt ++ cuisine_label ++ format cuisine_type ++ [nl]
    else prompt in
  let prompt :=
    if truthy meal_type
    then prompt ++ meal_label ++ format meal_type ++ [nl]
    else prompt in
  Ok (prompt ++ prompt_footer).

(** [RecipeGenerator._create_fallback_recipe] *)
Definition _create_fallback_recipe (w : world) (response_text : value) : value :=
  VDict [
    (py "id", VStr (uuid_str (uuid4_int (urandom w))));
    (py "title", VStr (py "AI Generated Recipe"));
    (py "description", VStr (py "Recipe generated by AI"));
    (py "prep_time", VStr (py "20 minutes"));
    (py "cook_time", VStr (py "30 minutes"));
    (py "total_time", VStr (py "50 minutes"));
    (py "servings", VInt 4);
    (py "difficulty", VStr (py "medium"));
    (py "cuisine", VStr (py "various"));
    (py "ingredients", VList []);
    (py "instructions", VList [response_text]);
    (py "nutrition", VDict []);
    (py "tags", VList [VStr (py "ai-generated")]);
    (py "tips", VList []);
    (py "created_at", VStr (isoformat (utcnow w)));
    (py "source", VStr (py "ai_generated"))
  ].

(** [response_text.find] and [.rfind] exist on text only. *)
Definition as_text (v : value) : result str :=
  match v with
  | VStr s => Ok s
  | _ => Raise AttributeError
  end.

(** [RecipeGenerator._parse_recipe_response]: the [try] block, then the
    two [except] clauses.  [except json.JSONDecodeError] builds the
    fallback; [except Exception] logs and re-raises. *)
Definition _parse_recipe_response (w : world) (response_text : value)
    : result value :=
  let attempt :=
    text <- as_text response_text ;;
    let start_idx := find 123 text in
    let end_idx := (rfind 125 text + 1)%Z in
    if (start_idx =? -1)%Z || (end_idx =? 0)%Z then
      Raise ValueError
    else
      let json_str := py_slice text start_idx end_idx in
      recipe <- json_loads SliceDecode json_str ;;
      recipe <- setitem recipe (py "id") (VStr (uuid_str (uuid4_int (urandom w)))) ;;
      recipe <- setitem recipe (py "created_at") (VStr (isoformat (utcnow w))) ;;
      recipe <- setitem recipe (py "source") (VStr (py "ai_generated")) ;;
      Ok recipe in
  match attempt with
  | Ok recipe => Ok recipe
  | Raise JSONDecodeError => Ok (_create_fallback_recipe w response_text)
  | Raise e => Raise e
  end.

(** The body sent to the model. *)
Definition request_body (prompt : str) : value :=
  VDict [
    (py "anthropic_version", VStr (py "bedrock-2023-05-31"));
    (py "max_tokens", VInt 2000);
    (py "messages",
      VList [VDict [(py "role", VStr (py "user")); (py "content", VStr prompt)]]);
    (py "temperature", VFloat (py "0.7"));
    (py "top_p", VFloat (py "0.9"))
  ].

(** [RecipeGenerator.generate_recipe].  The prompt is built before the
    [try]; whatever the [try] block raises is logged and re-raised. *)
Definition generate_recipe (w : world)
    (ingredients dietary_restrictions cuisine_type meal_type difficulty : value)
    : result value * trace :=
  match _build_prompt ingredients dietary_restrictions cuisine_type meal_type
                      difficulty with
  | Raise e => (Raise e, [])
  | Ok prompt =>
      let sent := json_dumps (request_body prompt) in
      (payload <- invoke_model w (model_id w) sent ;;
       response_body <- json_loads ReplyDecode payload ;;
       content <- subscript_key response_body (py "content") ;;
       first <- subscript_0 content ;;
       generated_text <- subscript_key first (py "text") ;;
       _parse_recipe_response w generated_text,
       [InvokeModel (model_id w) sent])
  end.

(** *** [lambda_handler] *)

Definition cors_headers : list (str * str) := [
  (py "Content-Type", py "application/json");
  (py "Access-Control-Allow-Origin", py "*");
  (py "Access-Control-Allow-Headers", py "Content-Type,Authorization");
  (py "Access-Control-Allow-Methods", py "POST,OPTIONS")
].

Definition error_response (status : Z) (message : str) : response :=
  {| statusCode := status;
     headers := cors_headers;
     body := json_dumps (VDict [(py "error", VStr message)]) |}.

Definition bad_request : response :=
  error_response 400 (py "Ingredients list is required").

Definition server_error : response :=
  error_response 500 (py "Internal server error").

Definition recipe_response (recipe : value) : response :=
  {| statusCode := 200; headers := cors_headers; body := json_dumps recipe |}.

(** The parameters read from the request body. *)
Record params : Type := {
  p_ingredients : value;
  p_dietary_restrictions : value;
  p_cuisine_type : value;
  p_meal_type : value;
  p_difficulty : value;
  p_save_to_db : value
}.

(** [body = json.loads(event.get('body', '{}'))] *)
Definition parse_body (event : dict) : result value :=
  loads BodyDecode (dict_get_default event (py "body") (VStr (py "{}"))).

Definition extract_params (body : value) : result params :=
  ingredients <- py_get body (py "ingredients") (VList []) ;;
  dietary_restrictions <- py_get body (py "dietary_restrictions") (VList []) ;;
  cuisine_type <- py_get body (py "cuisine_type") VNone ;;
  meal_type <- py_get body (py "meal_type") VNone ;;
  difficulty <- py_get body (py "difficulty") (VStr (py "medium")) ;;
  save_to_db <- py_get body (py "save_to_db") (VBool true) ;;
  Ok {| p_ingredients := ingredients;
        p_dietary_restrictions := dietary_restrictions;
        p_cuisine_type := cuisine_type;
        p_meal_type := meal_type;
        p_difficulty := difficulty;
        p_save_to_db := save_to_db |}.

(** The [try] block of [lambda_handler]. *)
Definition lambda_handler_try (w : world) (event : dict) : result response * trace :=
  match (body <- parse_body event ;; extract_params body) with
  | Raise e => (Raise e, [])
  | Ok p =>
      if negb (truthy (p_ingredients p)) then (Ok bad_request, [])
      else
        match generate_recipe w (p_ingredients p) (p_dietary_restrictions p)
                (p_cuisine_type p) (p_meal_type p) (p_difficulty p) with
        | (Raise e, tr) => (Raise e, tr)
        | (Ok recipe, tr) =>
            let tr :=
              if truthy (p_save_to_db p) then
                match put_item w recipe with
                | Ok _ => tr ++ [PutItem recipe]
                | Raise _ => tr ++ [PutItem recipe]   (* logged, not re-raised *)
                end
              else tr in
            (Ok (recipe_response recipe), tr)
        end
  end.

(** [lambda_handler]: [except Exception] answers with the server error. *)
Definition lambda_handler (w : world) (event : dict) : response * trace :=
  match lambda_handler_try w event with
  | (Ok r, tr) => (r, tr)
  | (Raise _, tr) => (server_error, tr)
  end.

(** The arguments [generate_recipe] and [_build_prompt] receive for a
    request of the data model. *)
Definition build (r : RecipeRequest) : result str :=
  _build_prompt (VList (map VStr (ingredients r)))
                (VList (map VStr (dietaryRestrictions r)))
                (optional_text (cuisineType r))
                (optional_text (mealType r))
                (VStr (difficulty r)).

(** [normalize] of the specification: [_parse_recipe_response] on text. *)
Definition normalize (w : world) (rawText : str) : result value :=
  _parse_recipe_response w (VStr rawText).

(** *** Names used in the statements below *)

(** The slice [_parse_recipe_response] hands to [json.loads]. *)
Definition json_slice (text : str) : str :=
  py_slice text (find 123 text) (rfind 125 text + 1).

Definition fresh_id (w : world) : str := uuid_str (uuid4_int (urandom w)).
Definition timestamp (w : world) : str := isoformat (utcnow w).

(** The three assignments made after a successful decode. *)
Definition stamp (w : world) (d : dict) : dict :=
  dict_set
    (dict_set (dict_set d (py "id") (VStr (fresh_id w)))
              (py "created_at") (VStr (timestamp w)))
    (py "source") (VStr (py "ai_generated")).

(** What [_parse_recipe_response] returns for [text], given what
    [json.loads] made of the slice. *)
Definition outcome (w : world) (text : str) (decoded : result value)
    : result value :=
  match decoded with
  | Ok (VDict d) => Ok (VDict (stamp w d))
  | Ok _ => Raise TypeError
  | Raise JSONDecodeError => Ok (_create_fallback_recipe w (VStr text))
  | Raise e => Raise e
  end.

(** The keys of the fallback recipe, in order. *)
Definition fallback_keys : list str := [
  py "id"; py "title"; py "description"; py "prep_time"; py "cook_time";
  py "total_time"; py "servings"; py "difficulty"; py "cuisine";
  py "ingredients"; py "instructions"; py "nutrition"; py "tags"; py "tips";
  py "created_at"; py "source"
].

(** The lines of the prompt for a request of the data model: the four
    opening lines, a line for the dietary restrictions when there are
    any, a line for the cuisine and one for the meal type when given and
    not empty, and the closing lines. *)
Definition opening_line : str :=
  py "Generate a detailed recipe using the following ingredients: ".

Definition dietary_line (restrictions : list str) : list str :=
  match restrictions with
  | [] => []
  | _ :: _ => [dietary_label ++ join (py ", ") restrictions]
  end.

Definition optional_line (label : str) (o : option str) : list str :=
  match o with
  | Some (c :: s) => [label ++ c :: s]
  | Some [] | None => []
  end.

Definition prompt_lines (r : RecipeRequest) : list str :=
  [opening_line ++ join (py ", ") (ingredients r);
   [];
   py "Requirements:";
   difficulty_label ++ difficulty r]
  ++ dietary_line (dietaryRestrictions r)
  ++ optional_line cuisine_label (cuisineType r)
  ++ optional_line meal_label (mealType r)
  ++ prompt_footer_lines.

(** No text of the request contains a line feed. *)
Definition single_line_request (r : RecipeRequest) : Prop :=
  Forall no_newline (ingredients r)
  /\ Forall no_newline (dietaryRestrictions r)
  /\ (forall c, cuisineType r = Some c -> no_newline c)
  /\ (forall m, mealType r = Some m -> no_newline m)
  /\ no_newline (difficulty r).

(** Two texts differ at a position both have. *)
Fixpoint clash (p q : str) : bool :=
  match p, q with
  | x :: p', y :: q' => negb (x =? y) || clash p' q'
  | _, _ => false
  end.

Definition no_newline_b (s : str) : bool := forallb (fun c => negb (c =? nl)) s.

(** A concrete world and interpreter for running the program: the model
    answers with a recipe wrapped in prose, the record store is down. *)
Definition sample_reply : str :=
  pyq "{'content': [{'type': 'text', 'text': 'Here you go: {\'title\':\'Pasta\',\'servings\':2} enjoy!'}]}".

Definition sample_world : world :=
  {| model_id := py "anthropic.claude-3-sonnet-20240229-v1:0";
     urandom := 2024;
     utcnow := {| year := 2024; month := 3; day := 9;
                  hour := 7; minute := 5; second := 0; microsecond := 0 |};
     invoke_model := fun _ _ => Ok sample_reply;
     put_item := fun _ => Raise (ServiceError 500) |}.

(** The limits of a stock CPython 3.11 running the handler near the
    bottom of the stack. *)
Definition sample_max_str_digits : N := 4300.

Definition sample_headroom (site : call_site) : nat := 900.

Definition sample_float_is_zero (numeral : str) : bool :=
  forallb (fun c => negb (is_digit c) || (c =? 48)) numeral.

Definition sample_float_dumps (numeral : str) : str := numeral.

Definition sample_py_format (v : value) : str := py "<value>".

Definition sample_request : RecipeRequest :=
  {| ingredients := [py "egg"; py "rice"];
     dietaryRestrictions := [py "vegetarian"];
     cuisineType := Some (py "thai");
     mealType := None;
     difficulty := py "easy" |}.

(** The same request with the cuisine given as the empty text. *)
Definition empty_cuisine_request : RecipeRequest :=
  {| ingredients := [py "egg"; py "rice"];
     dietaryRestrictions := [py "vegetarian"];
     cuisineType := Some [];
     mealType := None;
     difficulty := py "easy" |}.

(** A request whose only ingredient carries a line feed followed by the
    meal-type label. *)
Definition two_line_request : RecipeRequest :=
  {| ingredients := [py "salt" ++ [nl] ++ py "- Meal type: banquet"];
     dietaryRestrictions := [];
     cuisineType := None;
     mealType := None;
     difficulty := py "easy" |}.

(** Events of the boundary: no body at all, and a body asking for a
    recipe that is not to be saved. *)
Definition empty_event : dict := [].

Definition unsaved_event : dict :=
  [(py "body", VStr (pyq "{'ingredients': ['egg', 'rice'], 'save_to_db': false}"))].

Definition saved_event : dict :=
  [(py "body", VStr (pyq "{'ingredients': ['egg', 'rice']}"))].

(** *** The limits of the interpreter, on the text *)

(** No run of digits in [s] is long enough for [int] to refuse it. *)
Fixpoint short_digit_runs (s : str) : bool :=
  match s with
  | [] => true
  | _ :: r =>
      negb (digits_exceed int_max_str_digits (length (fst (span_digits s))))
      && short_digit_runs r
  end.

(** The opening braces and brackets of [s]. *)
Definition count_openers (s : str) : nat :=
  length (filter (fun c => (c =? 123) || (c =? 91)) s).

(** A text that cannot take the decoder called at [site] to a limit: its
    digit runs are short, and it has no more opening braces and brackets
    than containers can be entered. *)
Definition within_limits (site : call_site) (s : str) : Prop :=
  short_digit_runs s = true
  /\ (count_openers s <= S (recursion_headroom site))%nat.

(** [r] is what is left of [s] after some of it was read. *)
Definition suffix (r s : str) : Prop := exists pre, s = pre ++ r.

(** The exceptions [json.loads] raises on text. *)
Definition decoder_error (e : exn) : Prop :=
  e = JSONDecodeError \/ e = ValueError \/ e = RecursionError.

(** What holds of every outcome of the scanner on [s]: the fuel does
    not run out, what is left is shorter, and the only exceptions are
    the decoder's. *)
Definition scan_ok {A : Type} (s : str) (x : scan A) : Prop :=
  x <> Exhausted
  /\ (forall a r, x = Scanned a r -> (length r < length s)%nat)
  /\ (forall e, x = Failed e -> decoder_error e).

(** A text within the limits for [depth] containers. *)
Definition limits_ok (depth : nat) (s : str) : Prop :=
  short_digit_runs s = true /\ (count_openers s <= depth)%nat.

(** What holds of the outcome of the scanner on a text within the
    limits: it fails only on text that is not JSON, and what is left is
    a suffix. *)
Definition scan_clean {A : Type} (s : str) (x : scan A) : Prop :=
  (forall e, x = Failed e -> e = JSONDecodeError)
  /\ (forall a r, x = Scanned a r -> suffix r s).

(** *** Names used in the further properties *)

(** [response_body['content'][0]['text']] for the text of a response
    body, as [generate_recipe] reads it. *)
Definition generated_text (payload : str) : result value :=
  response_body <- json_loads ReplyDecode payload ;;
  content <- subscript_key response_body (py "content") ;;
  first <- subscript_0 content ;;
  subscript_key first (py "text").

(** What the inference endpoint and the reading of its answer give for
    a prompt. *)
Definition reply (w : world) (prompt : str) : result value :=
  payload <- invoke_model w (model_id w) (json_dumps (request_body prompt)) ;;
  generated_text payload.

(** The call [generate_recipe] makes for a prompt. *)
Definition invocation (w : world) (prompt : str) : event :=
  InvokeModel (model_id w) (json_dumps (request_body prompt)).

(** The parameters [lambda_handler] reads from a body that is a dict. *)
Definition params_of (d : dict) : params :=
  {| p_ingredients := dict_get_default d (py "ingredients") (VList []);
     p_dietary_restrictions :=
       dict_get_default d (py "dietary_restrictions") (VList []);
     p_cuisine_type := dict_get_default d (py "cuisine_type") VNone;
     p_meal_type := dict_get_default d (py "meal_type") VNone;
     p_difficulty := dict_get_default d (py "difficulty") (VStr (py "medium"));
     p_save_to_db := dict_get_default d (py "save_to_db") (VBool true) |}.

(** The prompt built from the parameters. *)
Definition prompt_of (ps : params) : result str :=
  _build_prompt (p_ingredients ps) (p_dietary_restrictions ps)
                (p_cuisine_type ps) (p_meal_type ps) (p_difficulty ps).

(** A text that holds both braces. *)
Definition braced (v : value) : Prop :=
  exists text, v = VStr text /\ In 123 text /\ In 125 text.

Definition has_key (d : dict) (k : str) : bool :=
  existsb (fun kv => str_eqb (fst kv) k) d.

(** The keys a dict lacks among those given, in the order given. *)
Definition missing_keys (d : dict) (ks : list str) : list str :=
  filter (fun k => negb (has_key d k)) ks.

(** Events for the further properties: a body that is JSON [null], a
    body that is a JSON array, ingredients that are numbers. *)
Definition null_body_event : dict := [(py "body", VNone)].

Definition array_body_event : dict := [(py "body", VStr (py "[1, 2]"))].

Definition numeric_ingredients_event : dict :=
  [(py "body", VStr (pyq "{'ingredients': [1, 2]}"))].

(** The prompt for the body of [saved_event]. *)
Definition saved_event_prompt : str :=
  unlines (prompt_lines {| ingredients := [py "egg"; py "rice"];
                           dietaryRestrictions := [];
                           cuisineType := None;
                           mealType := None;
                           difficulty := py "medium" |}).

(** Worlds for the further properties: the model answers without any
    brace; the model answers with braces around something that is not
    JSON. *)
Definition prose_world : world :=
  {| model_id := py "anthropic.claude-3-sonnet-20240229-v1:0";
     urandom := 7;
     utcnow := {| year := 2024; month := 3; day := 9;
                  hour := 7; minute := 5; second := 0; microsecond := 0 |};
     invoke_model :=
       fun _ _ => Ok (pyq "{'content': [{'type': 'text', 'text': 'Sorry, no recipe today.'}]}");
     put_item := fun _ => Ok tt |}.

Definition sloppy_world : world :=
  {| model_id := py "anthropic.claude-3-sonnet-20240229-v1:0";
     urandom := 7;
     utcnow := {| year := 2024; month := 3; day := 9;
                  hour := 7; minute := 5; second := 0; microsecond := 0 |};
     invoke_model :=
       fun _ _ => Ok (pyq "{'content': [{'type': 'text', 'text': '{title: Pasta}'}]}");
     put_item := fun _ => Ok tt |}.

(* ===================================================================== *)
(** ** Sample runs of the library models *)
(* ===================================================================== *)

Example loads_pasta :
  json_decode 4300 1 (pyq "{'title':'Pasta','servings':2}")
  = Ok (VDict [(py "title", VStr (py "Pasta")); (py "servings", VInt 2)]).
Proof. reflexivity. Qed.

Example loads_misc :
  json_decode 4300 2 (pyq " {'a': [1, -2.5e+3, true, null, 'x'], 'a': {}} ")
  = Ok (VDict [(py "a", VDict [])]).
Proof. reflexivity. Qed.

Example loads_list :
  json_decode 4300 1 (pyq "[1, -2.5e+3, 'x', 01]") = Raise JSONDecodeError
  /\ json_decode 4300 1 (pyq "[0, -2.5e+3, 'x\u00e9\n\ud83d\ude00', -0, 1.e5]")
     = Raise JSONDecodeError
  /\ json_decode 4300 1 (pyq "[0, -2.5e+3, 'x\u00e9\n\ud83d\ude00', -0, NaN ] ")
     = Ok (VList [VInt 0; VFloat (py "-2.5e+3"); VStr [120; 233; 10; 128512];
                  VInt 0; VFloat (py "NaN")]).
Proof. repeat split; reflexivity. Qed.

(** The interpreter's limits: an integer of 641 digits is refused when
    the limit is 640, not when there is none; a container inside a
    container needs a depth of two. *)
Example loads_limits :
  json_decode 640 1 (repeat 49 641) = Raise ValueError
  /\ (exists v, json_decode 0 1 (repeat 49 641) = Ok (VInt v))
  /\ (exists v, json_decode 4300 1 (repeat 49 640) = Ok (VInt v))
  /\ json_decode 4300 1 (py "[[]]") = Raise RecursionError
  /\ json_decode 4300 2 (py "[[]]") = Ok (VList [VList []])
  /\ json_decode 4300 0 (py "{}") = Raise RecursionError.
Proof.
  repeat split; try (vm_compute; reflexivity); eexists; vm_compute; reflexivity.
Qed.

Example uuid_str_example :
  uuid_str (uuid4_int 0) = py "00000000-0000-4000-8000-000000000000"
  /\ uuid_str (uuid4_int (2 ^ 128 - 1)) = py "ffffffff-ffff-4fff-bfff-ffffffffffff".
Proof. split; reflexivity. Qed.

Example isoformat_example :
  isoformat {| year := 2024; month := 3; day := 9; hour := 7; minute := 5;
               second := 0; microsecond := 1200 |}
  = py "2024-03-09T07:05:00.001200".
Proof. reflexivity. Qed.

(* ===================================================================== *)
(** ** Facts about text *)
(* ===================================================================== *)

Lemma str_eqb_eq (a b : str) : str_eqb a b = true <-> a = b.
Proof.
  revert b; induction a as [|x a IH]; intros [|y b]; simpl; split;
    try congruence; try reflexivity.
  - intros H. apply andb_true_iff in H as [Hx Hr].
    apply N.eqb_eq in Hx. apply IH in Hr. congruence.
  - intros H. injection H as -> ->.
    rewrite N.eqb_refl. simpl. now apply IH.
Qed.

Lemma str_eqb_refl (a : str) : str_eqb a a = true.
Proof. now apply str_eqb_eq. Qed.

Lemma str_eqb_neq (a b : str) : a <> b -> str_eqb a b = false.
Proof.
  intros H. destruct (str_eqb a b) eqn:E; [|reflexivity].
  apply str_eqb_eq in E. contradiction.
Qed.

Lemma startswith_app (p s : str) : startswith p (p ++ s) = true.
Proof.
  induction p as [|x p IH]; simpl; [reflexivity|].
  now rewrite N.eqb_refl.
Qed.

(** [find]: either the character does not occur, or the text splits at
    its first occurrence. *)
Lemma find_from_spec (c : N) (s : str) (i : Z) :
  (~ In c s /\ find_from c s i = (-1)%Z)
  \/ (exists pre post, s = pre ++ c :: post /\ ~ In c pre
        /\ find_from c s i = (i + Z.of_nat (length pre))%Z).
Proof.
  revert i; induction s as [|x r IH]; intros i; simpl.
  - left. split; [intros []|reflexivity].
  - destruct (N.eqb_spec x c) as [->|Hne].
    + right. exists [], r. simpl. repeat split; [intros []|lia].
    + destruct (IH (i + 1)%Z) as [[Hn Hf]|(pre & post & -> & Hn & Hf)].
      * left. split; [|exact Hf]. intros [H|H]; [congruence|contradiction].
      * right. exists (x :: pre), post. simpl. repeat split.
        -- intros [H|H]; [congruence|contradiction].
        -- rewrite Hf. lia.
Qed.

(** [rfind]: either the character does not occur, or the text splits at
    its last occurrence. *)
Lemma rfind_from_spec (c : N) (s : str) (i last : Z) :
  (~ In c s /\ rfind_from c s i last = last)
  \/ (exists pre post, s = pre ++ c :: post /\ ~ In c post
        /\ rfind_from c s i last = (i + Z.of_nat (length pre))%Z).
Proof.
  revert i last; induction s as [|x r IH]; intros i last; simpl.
  - left. split; [intros []|reflexivity].
  - destruct (IH (i + 1)%Z (if x =? c then i else last))
      as [[Hn Hf]|(pre & post & -> & Hn & Hf)].
    + destruct (N.eqb_spec x c) as [->|Hne].
      * right. exists [], r. simpl. repeat split; [exact Hn|rewrite Hf; lia].
      * left. split; [|exact Hf]. intros [H|H]; [congruence|contradiction].
    + right. exists (x :: pre), post. simpl. repeat split; [exact Hn|].
      rewrite Hf. lia.
Qed.

Lemma find_absent (c : N) (s : str) : ~ In c s -> find c s = (-1)%Z.
Proof.
  intros Hn. unfold find.
  destruct (find_from_spec c s 0) as [[_ H]|(pre & post & -> & _ & _)];
    [exact H|].
  exfalso. apply Hn. apply in_or_app. right. now left.
Qed.

Lemma rfind_absent (c : N) (s : str) : ~ In c s -> rfind c s = (-1)%Z.
Proof.
  intros Hn. unfold rfind.
  destruct (rfind_from_spec c s 0 (-1)) as [[_ H]|(pre & post & -> & _ & _)];
    [exact H|].
  exfalso. apply Hn. apply in_or_app. right. now left.
Qed.

Lemma find_present (c : N) (s : str) :
  In c s ->
  exists pre post, s = pre ++ c :: post /\ ~ In c pre
                   /\ find c s = Z.of_nat (length pre).
Proof.
  intros Hin. unfold find.
  destruct (find_from_spec c s 0) as [[Hn _]|(pre & post & E & Hn & Hf)];
    [contradiction|].
  exists pre, post. repeat split; [exact E|exact Hn|rewrite Hf; lia].
Qed.

Lemma rfind_present (c : N) (s : str) :
  In c s ->
  exists pre post, s = pre ++ c :: post /\ ~ In c post
                   /\ rfind c s = Z.of_nat (length pre).
Proof.
  intros Hin. unfold rfind.
  destruct (rfind_from_spec c s 0 (-1)) as [[Hn _]|(pre & post & E & Hn & Hf)];
    [contradiction|].
  exists pre, post. repeat split; [exact E|exact Hn|rewrite Hf; lia].
Qed.

(** A slice with bounds inside the text. *)
Lemma py_slice_inside (s : str) (i j : nat) :
  (i <= length s)%nat -> (j <= length s)%nat ->
  py_slice s (Z.of_nat i) (Z.of_nat j) = firstn (j - i) (skipn i s).
Proof.
  intros Hi Hj. unfold py_slice, clip_index.
  destruct (Z.ltb_spec (Z.of_nat i) 0) as [H|_]; [lia|].
  destruct (Z.ltb_spec (Z.of_nat j) 0) as [H|_]; [lia|].
  rewrite !Z.min_r, !Z.max_r by lia.
  rewrite Nat2Z.id. f_equal. lia.
Qed.

(** The slice from a first occurrence to a later last occurrence. *)
Lemma py_slice_between (pre mid post : str) (a b : N) :
  py_slice (pre ++ a :: mid ++ b :: post)
           (Z.of_nat (length pre))
           (Z.of_nat (length (pre ++ a :: mid)) + 1)
  = a :: mid ++ [b].
Proof.
  replace (Z.of_nat (length (pre ++ a :: mid)) + 1)%Z
    with (Z.of_nat (S (length (pre ++ a :: mid)))) by lia.
  rewrite py_slice_inside.
  2, 3: rewrite ?length_app; cbn [length]; rewrite ?length_app; cbn [length]; lia.
  rewrite skipn_app, Nat.sub_diag, skipn_all. cbn [skipn app].
  rewrite length_app. cbn [length].
  replace (S (length pre + S (length mid)) - length pre)%nat
    with (S (length mid + 1)) by lia.
  cbn [firstn]. rewrite firstn_app_2. reflexivity.
Qed.

(* ===================================================================== *)
(** ** Facts about [json.loads] *)
(* ===================================================================== *)

Ltac break_if H :=
  match type of H with
  | context [if ?b then _ else _] => destruct b eqn:?
  end.

Ltac break_match H :=
  match type of H with
  | context [match ?x with _ => _ end] => destruct x eqn:?
  end.

Lemma skip_ws_le (s : str) : (length (skip_ws s) <= length s)%nat.
Proof.
  induction s as [|c r IH]; simpl; [lia|].
  destruct (is_ws c); simpl; lia.
Qed.

Lemma skip_ws_cons (s r : str) (c : N) :
  skip_ws s = c :: r -> (length r < length s)%nat.
Proof.
  intros H. pose proof (skip_ws_le s) as L. rewrite H in L. simpl in L. lia.
Qed.

Lemma push_char_some (c : N) (o : option (str * str)) (x r : str) :
  push_char c o = Some (x, r) -> exists x', o = Some (x', r) /\ x = c :: x'.
Proof.
  destruct o as [[x' r']|]; simpl; [|discriminate].
  intros H. injection H as <- <-. now exists x'.
Qed.

Lemma scanstring_lt (n : nat) :
  forall s x r, (length s <= n)%nat -> scanstring s = Some (x, r) ->
                (length r < length s)%nat.
Proof.
  induction n as [|n IH]; intros s x r Hn H.
  - destruct s; [discriminate|simpl in Hn; lia].
  - destruct s as [|c r0]; [discriminate|]. simpl in Hn.
    cbn [scanstring] in H.
    repeat (break_if H || break_match H); try discriminate;
      try (injection H as <- <-; simpl; lia);
      subst;
      apply push_char_some in H as (x' & H & _);
      apply IH in H; simpl in *; lia.
Qed.

Lemma span_digits_le (s d t : str) :
  span_digits s = (d, t) -> (length t <= length s)%nat.
Proof.
  revert d t; induction s as [|c r IH]; intros d t H; simpl in H.
  - injection H as <- <-. simpl. lia.
  - destruct (is_digit c).
    + destruct (span_digits r) as [d' t'] eqn:E. injection H as <- <-.
      specialize (IH _ _ eq_refl). simpl. lia.
    + injection H as <- <-. simpl. lia.
Qed.

Lemma scan_int_part_lt (s : str) (neg : bool) (d t : str) :
  scan_int_part s = Some (neg, d, t) -> (length t < length s)%nat.
Proof.
  unfold scan_int_part. intros H.
  destruct s as [|c r]; [discriminate|].
  destruct (c =? 45).
  - destruct r as [|c' r']; [discriminate|].
    destruct (c' =? 48); [injection H as <- <- <-; simpl; lia|].
    destruct (is_digit c'); [|discriminate].
    destruct (span_digits r') as [d' t'] eqn:E. injection H as <- <- <-.
    apply span_digits_le in E. simpl. lia.
  - destruct (c =? 48); [injection H as <- <- <-; simpl; lia|].
    destruct (is_digit c); [|discriminate].
    destruct (span_digits r) as [d' t'] eqn:E. injection H as <- <- <-.
    apply span_digits_le in E. simpl. lia.
Qed.

Lemma scan_frac_le (s f t : str) :
  scan_frac s = (f, t) -> (length t <= length s)%nat.
Proof.
  unfold scan_frac. intros H.
  destruct s as [|c r]; [injection H as <- <-; simpl; lia|].
  destruct (c =? 46); [|injection H as <- <-; simpl; lia].
  destruct (span_digits r) as [d t'] eqn:E. apply span_digits_le in E.
  destruct d; injection H as <- <-; simpl; lia.
Qed.

Lemma scan_exp_le (s e t : str) :
  scan_exp s = (e, t) -> (length t <= length s)%nat.
Proof.
  unfold scan_exp. intros H.
  destruct s as [|c r]; [injection H as <- <-; simpl; lia|].
  destruct ((c =? 101) || (c =? 69)); [|injection H as <- <-; simpl; lia].
  destruct r as [|c' r'].
  - simpl in H. injection H as <- <-. simpl. lia.
  - destruct ((c' =? 43) || (c' =? 45)).
    + destruct (span_digits r') as [d t'] eqn:E. apply span_digits_le in E.
      destruct d; injection H as <- <-; simpl; lia.
    + destruct (span_digits (c' :: r')) as [d t'] eqn:E.
      apply span_digits_le in E.
      destruct d; injection H as <- <-; simpl in *; lia.
Qed.

Lemma match_number_lt (m : N) (s : str) (x : result value) (r : str) :
  match_number m s = Some (x, r) -> (length r < length s)%nat.
Proof.
  unfold match_number. intros H.
  destruct (scan_int_part s) as [[[neg d] s2]|] eqn:Ei; [|discriminate].
  destruct (scan_frac s2) as [f s3] eqn:Ef.
  destruct (scan_exp s3) as [e s4] eqn:Ee.
  apply scan_int_part_lt in Ei. apply scan_frac_le in Ef. apply scan_exp_le in Ee.
  destruct f, e; try destruct (digits_exceed m _); injection H as <- <-; lia.
Qed.

(** The only exception of a number is the [ValueError] of its digits. *)
Lemma match_number_raises (m : N) (s : str) (e : exn) (r : str) :
  match_number m s = Some (Raise e, r) -> e = ValueError.
Proof.
  unfold match_number. intros H.
  destruct (scan_int_part s) as [[[neg d] s2]|]; [|discriminate].
  destruct (scan_frac s2) as [f s3]. destruct (scan_exp s3) as [x s4].
  destruct f, x; try destruct (digits_exceed m _); try discriminate.
  now injection H as <- <-.
Qed.

Lemma after_word_length (w s r : str) :
  after_word w s = Some r -> length s = (length w + length r)%nat.
Proof.
  revert s; induction w as [|x w IH]; intros s H; simpl in H.
  - injection H as <-. reflexivity.
  - destruct s as [|y s]; [discriminate|].
    destruct (x =? y); [|discriminate].
    apply IH in H. simpl. lia.
Qed.

Ltac atom_words H s tac :=
  repeat match type of H with
         | context [match after_word ?w s with _ => _ end] =>
             let E := fresh "E" in
             destruct (after_word w s) eqn:E; [tac E|]
         end.

Lemma scan_atom_lt (m : N) (s : str) (v : value) (r : str) :
  scan_atom m s = Scanned v r -> (length r < length s)%nat.
Proof.
  unfold scan_atom. intros H.
  atom_words H s
    ltac:(fun E => apply after_word_length in E; injection H as <- <-;
                   simpl in E; lia).
  destruct (match_number m s) as [[[v'|e'] r']|] eqn:En.
  { injection H as <- <-. now apply match_number_lt in En. }
  { discriminate. }
  atom_words H s
    ltac:(fun E => apply after_word_length in E; injection H as <- <-;
                   simpl in E; lia).
  discriminate.
Qed.

Lemma scan_atom_failed (m : N) (s : str) (e : exn) :
  scan_atom m s = Failed e -> e = JSONDecodeError \/ e = ValueError.
Proof.
  unfold scan_atom. intros H.
  atom_words H s ltac:(fun E => discriminate).
  destruct (match_number m s) as [[[v'|e'] r']|] eqn:En.
  { discriminate. }
  { injection H as <-. right. now apply match_number_raises in En. }
  atom_words H s ltac:(fun E => discriminate).
  injection H as <-. now left.
Qed.

Lemma scan_atom_total (m : N) (s : str) : scan_atom m s <> Exhausted.
Proof.
  unfold scan_atom.
  repeat match goal with
         | |- context [match ?x with _ => _ end] =>
             destruct x as [[[?|?] ?]|] || destruct x
         end; discriminate.
Qed.

Lemma scan_atom_ok (m : N) (s : str) : scan_ok s (scan_atom m s).
Proof.
  split; [apply scan_atom_total|]. split.
  - intros v r H. now apply scan_atom_lt in H.
  - intros e H. apply scan_atom_failed in H. unfold decoder_error. tauto.
Qed.

(** Closes a leaf of the scanner: the outcome is a constructor, a
    scanned rest is shorter by the collected length facts, and a
    failure is one of the decoder's. *)
Ltac scan_leaf :=
  split;
  [ discriminate
  | split;
    [ let H := fresh in
      intros ? ? H;
      first [discriminate | injection H as <- <-; simpl in *; lia]
    | let H := fresh in
      intros ? H;
      first [discriminate
            | injection H as <-; unfold decoder_error; auto] ] ].

(** A failure handed on from a part that was scanned. *)
Ltac scan_fail Hf :=
  split;
  [ discriminate
  | split;
    [ intros ? ? ?; discriminate
    | let H := fresh in intros ? H; injection H as <-; now apply Hf ] ].

(** With fuel above twice the length of the text the scanner never runs
    out of it, what it leaves is shorter than what it was given, and it
    fails only with the decoder's exceptions. *)
Lemma scan_budget (m : N) (fuel : nat) :
  (forall depth s, (2 * length s < fuel)%nat ->
     scan_ok s (scan_once m fuel depth s))
  /\ (forall depth s, (2 * length s < fuel)%nat ->
     scan_ok s (scan_members m fuel depth s))
  /\ (forall depth s, (2 * length s + 1 < fuel)%nat ->
     scan_ok s (scan_items m fuel depth s)).
Proof.
  induction fuel as [|f (IHo & IHm & IHi)].
  { repeat split; intros; lia. }
  split; [|split].
  - (* scan_once *)
    intros depth [|c r] Hs; [simpl; scan_leaf|].
    cbn [length] in Hs. cbn [scan_once].
    destruct (c =? 34).
    { destruct (scanstring r) as [[x r']|] eqn:E; [|scan_leaf].
      apply scanstring_lt with (n := length r) in E; [|lia]. scan_leaf. }
    destruct (c =? 123).
    { destruct depth as [|d]; [scan_leaf|].
      destruct (skip_ws r) as [|c1 r1] eqn:Es; [scan_leaf|].
      pose proof (skip_ws_le r) as L. rewrite Es in L. cbn [length] in L.
      destruct (c1 =? 125); [scan_leaf|].
      destruct (c1 =? 34); [|scan_leaf].
      destruct (IHm d (c1 :: r1)) as (Hne & Hlt & Hf); [cbn [length]; lia|].
      destruct (scan_members m f d (c1 :: r1)) as [ps r2|e0|];
        [|scan_fail Hf|exfalso; now apply Hne].
      specialize (Hlt _ _ eq_refl). scan_leaf. }
    destruct (c =? 91).
    { destruct depth as [|d]; [scan_leaf|].
      destruct (skip_ws r) as [|c1 r1] eqn:Es; [scan_leaf|].
      pose proof (skip_ws_le r) as L. rewrite Es in L. cbn [length] in L.
      destruct (c1 =? 93); [scan_leaf|].
      destruct (IHi d (c1 :: r1)) as (Hne & Hlt & Hf); [cbn [length]; lia|].
      destruct (scan_items m f d (c1 :: r1)) as [vs r2|e0|];
        [|scan_fail Hf|exfalso; now apply Hne].
      specialize (Hlt _ _ eq_refl). scan_leaf. }
    apply scan_atom_ok.
  - (* scan_members *)
    intros depth [|q r] Hs; [simpl; scan_leaf|].
    cbn [length] in Hs. cbn [scan_members].
    destruct (q =? 34); [|scan_leaf].
    destruct (scanstring r) as [[key r1]|] eqn:E; [|scan_leaf].
    apply scanstring_lt with (n := length r) in E; [|lia].
    destruct (skip_ws r1) as [|c r2] eqn:E1; [scan_leaf|].
    apply skip_ws_cons in E1.
    destruct (c =? 58); [|scan_leaf].
    pose proof (skip_ws_le r2) as L2.
    destruct (IHo depth (skip_ws r2)) as (Hne & Hlt & Hf); [lia|].
    destruct (scan_once m f depth (skip_ws r2)) as [v r3|e0|];
      [|scan_fail Hf|exfalso; now apply Hne].
    specialize (Hlt _ _ eq_refl).
    destruct (skip_ws r3) as [|d r4] eqn:E3; [scan_leaf|].
    apply skip_ws_cons in E3.
    destruct (d =? 125); [scan_leaf|].
    destruct (d =? 44); [|scan_leaf].
    pose proof (skip_ws_le r4) as L4.
    destruct (IHm depth (skip_ws r4)) as (Hne' & Hlt' & Hf'); [lia|].
    destruct (scan_members m f depth (skip_ws r4)) as [ps r5|e1|];
      [|scan_fail Hf'|exfalso; now apply Hne'].
    specialize (Hlt' _ _ eq_refl). scan_leaf.
  - (* scan_items *)
    intros depth s Hs. cbn [scan_items].
    destruct (IHo depth s) as (Hne & Hlt & Hf); [lia|].
    destruct (scan_once m f depth s) as [v r1|e0|];
      [|scan_fail Hf|exfalso; now apply Hne].
    specialize (Hlt _ _ eq_refl).
    destruct (skip_ws r1) as [|d r2] eqn:E1; [scan_leaf|].
    apply skip_ws_cons in E1.
    destruct (d =? 93); [scan_leaf|].
    destruct (d =? 44); [|scan_leaf].
    pose proof (skip_ws_le r2) as L2.
    destruct (IHi depth (skip_ws r2)) as (Hne' & Hlt' & Hf'); [lia|].
    destruct (scan_items m f depth (skip_ws r2)) as [vs r3|e1|];
      [|scan_fail Hf'|exfalso; now apply Hne'].
    specialize (Hlt' _ _ eq_refl). scan_leaf.
Qed.

(** [json.loads] on text yields a value or raises one of the decoder's
    exceptions: [JSONDecodeError], the [ValueError] of an integer with
    too many digits, or [RecursionError]. *)
Lemma json_loads_result (site : call_site) (s : str) :
  (exists v, json_loads site s = Ok v)
  \/ (exists e, json_loads site s = Raise e /\ decoder_error e).
Proof.
  unfold json_loads, json_decode.
  destruct (startswith [65279] s);
    [right; exists JSONDecodeError; split; [reflexivity|now left]|].
  pose proof (skip_ws_le s) as L.
  destruct (scan_budget int_max_str_digits (S (2 * length s))) as (Ho & _ & _).
  destruct (Ho (S (recursion_headroom site)) (skip_ws s)) as (Hne & _ & Hf); [lia|].
  destruct (scan_once _ _ _ (skip_ws s)) as [v r|e|].
  - destruct (skip_ws r); [left; now exists v|].
    right. exists JSONDecodeError. split; [reflexivity|now left].
  - right. exists e. split; [reflexivity|now apply Hf].
  - exfalso. now apply Hne.
Qed.

(** The empty text is not JSON. *)
Lemma json_loads_empty (site : call_site) :
  json_loads site [] = Raise JSONDecodeError.
Proof. reflexivity. Qed.

(** Text that begins with an opening brace decodes, if at all, to a
    dict. *)
Lemma json_loads_brace (site : call_site) (m : str) (v : value) :
  json_loads site (123 :: m) = Ok v -> exists d, v = VDict d.
Proof.
  unfold json_loads, json_decode.
  change (startswith [65279] (123 :: m)) with false.
  change (skip_ws (123 :: m)) with (123 :: m).
  cbn [scan_once]. change (123 =? 34) with false. change (123 =? 123) with true.
  cbv iota.
  intros H.
  destruct (skip_ws m) as [|c1 r1]; [discriminate|].
  destruct (c1 =? 125).
  { destruct (skip_ws r1); [|discriminate]. injection H as <-. now eexists. }
  destruct (c1 =? 34); [|discriminate].
  destruct (scan_members _ _ _ _) as [ps r2|e|]; try discriminate.
  destruct (skip_ws r2); [|discriminate]. injection H as <-. now eexists.
Qed.

(** *** Text within the limits of the interpreter *)

Lemma suffix_refl (s : str) : suffix s s.
Proof. now exists []. Qed.

Lemma suffix_cons (r s : str) (c : N) : suffix r s -> suffix r (c :: s).
Proof. intros [pre ->]. now exists (c :: pre). Qed.

Lemma suffix_trans (a b c : str) : suffix a b -> suffix b c -> suffix a c.
Proof.
  intros [p ->] [q ->]. exists (q ++ p). now rewrite app_assoc.
Qed.

Ltac suffix_tac :=
  first [assumption | apply suffix_refl | apply suffix_cons; suffix_tac].

Lemma skip_ws_suffix (s : str) : suffix (skip_ws s) s.
Proof.
  induction s as [|c r IH]; simpl; [apply suffix_refl|].
  destruct (is_ws c); suffix_tac.
Qed.

Lemma scanstring_suffix (n : nat) :
  forall s x r, (length s <= n)%nat -> scanstring s = Some (x, r) -> suffix r s.
Proof.
  induction n as [|n IH]; intros s x r Hn H.
  - destruct s; [discriminate|simpl in Hn; lia].
  - destruct s as [|c r0]; [discriminate|]. simpl in Hn.
    cbn [scanstring] in H.
    repeat (break_if H || break_match H); try discriminate;
      try (injection H as <- <-; suffix_tac);
      subst;
      apply push_char_some in H as (x' & H & _);
      (apply IH in H; [suffix_tac|simpl in *; lia]).
Qed.

Lemma span_digits_suffix (s d t : str) : span_digits s = (d, t) -> suffix t s.
Proof.
  revert d t; induction s as [|c r IH]; intros d t H; simpl in H.
  - injection H as <- <-. apply suffix_refl.
  - destruct (is_digit c).
    + destruct (span_digits r) as [d' t'] eqn:E. injection H as <- <-.
      apply suffix_cons. now apply (IH d').
    + injection H as <- <-. apply suffix_refl.
Qed.

Lemma scan_int_part_suffix (s : str) (neg : bool) (d t : str) :
  scan_int_part s = Some (neg, d, t) -> suffix t s.
Proof.
  unfold scan_int_part. intros H.
  destruct s as [|c r]; [discriminate|].
  destruct (c =? 45).
  - destruct r as [|c' r']; [discriminate|].
    destruct (c' =? 48); [injection H as <- <- <-; suffix_tac|].
    destruct (is_digit c'); [|discriminate].
    destruct (span_digits r') as [d' t'] eqn:E. injection H as <- <- <-.
    apply span_digits_suffix in E. suffix_tac.
  - destruct (c =? 48); [injection H as <- <- <-; suffix_tac|].
    destruct (is_digit c); [|discriminate].
    destruct (span_digits r) as [d' t'] eqn:E. injection H as <- <- <-.
    apply span_digits_suffix in E. suffix_tac.
Qed.

Lemma scan_frac_suffix (s f t : str) : scan_frac s = (f, t) -> suffix t s.
Proof.
  unfold scan_frac. intros H.
  destruct s as [|c r]; [injection H as <- <-; suffix_tac|].
  destruct (c =? 46); [|injection H as <- <-; suffix_tac].
  destruct (span_digits r) as [d t'] eqn:E. apply span_digits_suffix in E.
  destruct d; injection H as <- <-; suffix_tac.
Qed.

Lemma scan_exp_suffix (s e t : str) : scan_exp s = (e, t) -> suffix t s.
Proof.
  unfold scan_exp. intros H.
  destruct s as [|c r]; [injection H as <- <-; suffix_tac|].
  destruct ((c =? 101) || (c =? 69)); [|injection H as <- <-; suffix_tac].
  destruct r as [|c' r'].
  - simpl in H. injection H as <- <-. suffix_tac.
  - destruct ((c' =? 43) || (c' =? 45)).
    + destruct (span_digits r') as [d t'] eqn:E. apply span_digits_suffix in E.
      destruct d; injection H as <- <-; suffix_tac.
    + destruct (span_digits (c' :: r')) as [d t'] eqn:E.
      apply span_digits_suffix in E.
      destruct d; injection H as <- <-; suffix_tac.
Qed.

Lemma match_number_suffix (m : N) (s : str) (x : result value) (r : str) :
  match_number m s = Some (x, r) -> suffix r s.
Proof.
  unfold match_number. intros H.
  destruct (scan_int_part s) as [[[neg d] s2]|] eqn:Ei; [|discriminate].
  destruct (scan_frac s2) as [f s3] eqn:Ef.
  destruct (scan_exp s3) as [e s4] eqn:Ee.
  apply scan_int_part_suffix in Ei. apply scan_frac_suffix in Ef.
  apply scan_exp_suffix in Ee.
  assert (suffix s4 s) by eauto using suffix_trans.
  destruct f, e; try destruct (digits_exceed m _); now injection H as <- <-.
Qed.

Lemma after_word_suffix (w s r : str) : after_word w s = Some r -> suffix r s.
Proof.
  revert s; induction w as [|x w IH]; intros s H; simpl in H.
  - injection H as <-. apply suffix_refl.
  - destruct s as [|y s]; [discriminate|].
    destruct (x =? y); [|discriminate].
    apply suffix_cons. now apply IH.
Qed.

Lemma scan_atom_suffix (m : N) (s : str) (v : value) (r : str) :
  scan_atom m s = Scanned v r -> suffix r s.
Proof.
  unfold scan_atom. intros H.
  atom_words H s
    ltac:(fun E => apply after_word_suffix in E; now injection H as <- <-).
  destruct (match_number m s) as [[[v'|e'] r']|] eqn:En.
  { injection H as <- <-. now apply match_number_suffix in En. }
  { discriminate. }
  atom_words H s
    ltac:(fun E => apply after_word_suffix in E; now injection H as <- <-).
  discriminate.
Qed.

Lemma count_openers_suffix (r s : str) :
  suffix r s -> (count_openers r <= count_openers s)%nat.
Proof.
  intros [pre ->]. unfold count_openers. rewrite filter_app, length_app. lia.
Qed.

Lemma short_digit_runs_suffix (r s : str) :
  suffix r s -> short_digit_runs s = true -> short_digit_runs r = true.
Proof.
  intros [pre ->]. induction pre as [|c pre IH]; [trivial|].
  cbn [app short_digit_runs]. intros H.
  apply andb_true_iff in H as [_ H]. now apply IH.
Qed.

Lemma limits_ok_suffix (depth : nat) (r s : str) :
  suffix r s -> limits_ok depth s -> limits_ok depth r.
Proof.
  intros Hs [H1 H2]. split; [now apply (short_digit_runs_suffix r s)|].
  apply count_openers_suffix in Hs. lia.
Qed.

(** Below an opening brace or bracket one container less is needed. *)
Lemma limits_ok_opener (depth : nat) (c : N) (r : str) :
  (c =? 123) || (c =? 91) = true -> limits_ok depth (c :: r) ->
  exists d, depth = S d /\ limits_ok d r.
Proof.
  intros Hc [H1 H2]. unfold count_openers in H2. cbn [filter] in H2.
  rewrite Hc in H2. cbn [length] in H2.
  destruct depth as [|d]; [lia|]. exists d. split; [reflexivity|]. split.
  - cbn [short_digit_runs] in H1. now apply andb_true_iff in H1 as [_ H1].
  - unfold count_openers. lia.
Qed.

(** The digits of the first run of a text within the limits. *)
Lemma short_digit_runs_head (s : str) :
  short_digit_runs s = true ->
  digits_exceed int_max_str_digits (length (fst (span_digits s))) = false.
Proof.
  destruct s as [|c r]; [reflexivity|].
  cbn [short_digit_runs]. intros H. apply andb_true_iff in H as [H _].
  now apply negb_true_iff in H.
Qed.

(** On a text within the limits no integer is refused. *)
Lemma match_number_within (s : str) (e : exn) (r : str) :
  short_digit_runs s = true ->
  match_number int_max_str_digits s <> Some (Raise e, r).
Proof.
  intros Hs H. unfold match_number in H.
  destruct (scan_int_part s) as [[[neg d] s2]|] eqn:Ei; [|discriminate].
  destruct (scan_frac s2) as [f s3]. destruct (scan_exp s3) as [x s4].
  destruct f, x; try discriminate.
  assert (Hd : digits_exceed int_max_str_digits (length d) = false).
  { clear H. unfold scan_int_part in Ei.
    destruct s as [|c r0]; [discriminate|].
    assert (G : forall t,
               short_digit_runs t = true ->
               match t with
               | [] => None
               | c :: r =>
                   if c =? 48 then Some (neg, [48], r)
                   else if is_digit c then
                          let (d, t) := span_digits r in Some (neg, c :: d, t)
                        else None
               end = Some (neg, d, s2) ->
               digits_exceed int_max_str_digits (length d) = false).
    { intros t Ht E. destruct t as [|c' r']; [discriminate|].
      destruct (c' =? 48); [injection E as <- <-; reflexivity|].
      destruct (is_digit c') eqn:Ec; [|discriminate].
      apply short_digit_runs_head in Ht. cbn [span_digits] in Ht.
      rewrite Ec in Ht.
      destruct (span_digits r') as [d' t']. injection E as <- <-. exact Ht. }
    destruct (c =? 45).
    - destruct neg; [|destruct r0 as [|c' r']; [discriminate|];
                       destruct (c' =? 48); [discriminate|];
                       destruct (is_digit c'); [|discriminate];
                       destruct (span_digits r'); discriminate].
      apply (G r0); [|exact Ei].
      apply (short_digit_runs_suffix r0 (c :: r0)); [suffix_tac|exact Hs].
    - destruct neg; [destruct (c =? 48); [discriminate|];
                     destruct (is_digit c); [|discriminate];
                     destruct (span_digits r0); discriminate|].
      now apply (G (c :: r0)). }
  rewrite Hd in H. discriminate.
Qed.

Lemma scan_atom_clean (s : str) :
  short_digit_runs s = true -> scan_clean s (scan_atom int_max_str_digits s).
Proof.
  intros Hs. split.
  - intros e H. unfold scan_atom in H.
    atom_words H s ltac:(fun E => discriminate).
    destruct (match_number int_max_str_digits s) as [[[v'|e'] r']|] eqn:En.
    { discriminate. }
    { exfalso. now apply (match_number_within s e' r' Hs). }
    atom_words H s ltac:(fun E => discriminate).
    now injection H as <-.
  - intros v r H. now apply scan_atom_suffix in H.
Qed.

(** Closes a leaf of the scanner on a text within the limits. *)
Ltac clean_leaf :=
  split;
  [ let H := fresh in
    intros ? H; first [discriminate | now injection H as <-]
  | let H := fresh in
    intros ? ? H;
    first [discriminate
          | injection H as <- <-; eauto 6 using suffix_trans, suffix_cons,
                                                suffix_refl] ].

Ltac clean_fail Hf :=
  split;
  [ let H := fresh in intros ? H; injection H as <-; now apply Hf
  | intros ? ? ?; discriminate ].

(** On a text within the limits the scanner fails only where the text
    is not JSON. *)
Lemma scan_within (fuel : nat) :
  (forall depth s, limits_ok depth s ->
     scan_clean s (scan_once int_max_str_digits fuel depth s))
  /\ (forall depth s, limits_ok depth s ->
     scan_clean s (scan_members int_max_str_digits fuel depth s))
  /\ (forall depth s, limits_ok depth s ->
     scan_clean s (scan_items int_max_str_digits fuel depth s)).
Proof.
  induction fuel as [|f (IHo & IHm & IHi)].
  { repeat split; intros; discriminate. }
  split; [|split].
  - (* scan_once *)
    intros depth [|c r] Hl; [simpl; clean_leaf|].
    cbn [scan_once].
    destruct (c =? 34).
    { destruct (scanstring r) as [[x r']|] eqn:E; [|clean_leaf].
      apply scanstring_suffix with (n := length r) in E; [|lia]. clean_leaf. }
    destruct (c =? 123) eqn:Eb.
    { destruct (limits_ok_opener depth c r) as (d & -> & Hd);
        [now rewrite Eb|exact Hl|].
      pose proof (skip_ws_suffix r) as Sw.
      destruct (skip_ws r) as [|c1 r1] eqn:Es; [clean_leaf|].
      destruct (c1 =? 125); [clean_leaf|].
      destruct (c1 =? 34); [|clean_leaf].
      destruct (IHm d (c1 :: r1)) as (Hf & Hsuf);
        [now apply (limits_ok_suffix d _ r)|].
      destruct (scan_members _ f d (c1 :: r1)) as [ps r2|e0|];
        [|clean_fail Hf|clean_leaf].
      specialize (Hsuf _ _ eq_refl). clean_leaf. }
    destruct (c =? 91) eqn:Ek.
    { destruct (limits_ok_opener depth c r) as (d & -> & Hd);
        [now rewrite Ek, orb_true_r|exact Hl|].
      pose proof (skip_ws_suffix r) as Sw.
      destruct (skip_ws r) as [|c1 r1] eqn:Es; [clean_leaf|].
      destruct (c1 =? 93); [clean_leaf|].
      destruct (IHi d (c1 :: r1)) as (Hf & Hsuf);
        [now apply (limits_ok_suffix d _ r)|].
      destruct (scan_items _ f d (c1 :: r1)) as [vs r2|e0|];
        [|clean_fail Hf|clean_leaf].
      specialize (Hsuf _ _ eq_refl). clean_leaf. }
    apply scan_atom_clean. apply Hl.
  - (* scan_members *)
    intros depth [|q r] Hl; [simpl; clean_leaf|].
    cbn [scan_members].
    destruct (q =? 34); [|clean_leaf].
    destruct (scanstring r) as [[key r1]|] eqn:E; [|clean_leaf].
    apply scanstring_suffix with (n := length r) in E; [|lia].
    pose proof (skip_ws_suffix r1) as S1.
    destruct (skip_ws r1) as [|c r2] eqn:E1; [clean_leaf|].
    destruct (c =? 58); [|clean_leaf].
    pose proof (skip_ws_suffix r2) as S2.
    assert (Q2 : suffix (skip_ws r2) (q :: r))
      by eauto 8 using suffix_trans, suffix_cons, suffix_refl.
    destruct (IHo depth (skip_ws r2)) as (Hf & Hsuf);
      [now apply (limits_ok_suffix depth _ (q :: r))|].
    destruct (scan_once _ f depth (skip_ws r2)) as [v r3|e0|];
      [|clean_fail Hf|clean_leaf].
    specialize (Hsuf _ _ eq_refl).
    assert (Q3 : suffix r3 (q :: r)) by eauto using suffix_trans.
    pose proof (skip_ws_suffix r3) as S3.
    destruct (skip_ws r3) as [|d r4] eqn:E3; [clean_leaf|].
    assert (Q4 : suffix r4 (q :: r))
      by eauto 8 using suffix_trans, suffix_cons, suffix_refl.
    destruct (d =? 125); [clean_leaf|].
    destruct (d =? 44); [|clean_leaf].
    pose proof (skip_ws_suffix r4) as S4.
    assert (Q5 : suffix (skip_ws r4) (q :: r)) by eauto using suffix_trans.
    destruct (IHm depth (skip_ws r4)) as (Hf' & Hsuf');
      [now apply (limits_ok_suffix depth _ (q :: r))|].
    destruct (scan_members _ f depth (skip_ws r4)) as [ps r5|e1|];
      [|clean_fail Hf'|clean_leaf].
    specialize (Hsuf' _ _ eq_refl). clean_leaf.
  - (* scan_items *)
    intros depth s Hl. cbn [scan_items].
    destruct (IHo depth s Hl) as (Hf & Hsuf).
    destruct (scan_once _ f depth s) as [v r1|e0|];
      [|clean_fail Hf|clean_leaf].
    specialize (Hsuf _ _ eq_refl).
    pose proof (skip_ws_suffix r1) as S1.
    destruct (skip_ws r1) as [|d r2] eqn:E1; [clean_leaf|].
    assert (Q2 : suffix r2 s)
      by eauto 8 using suffix_trans, suffix_cons, suffix_refl.
    destruct (d =? 93); [clean_leaf|].
    destruct (d =? 44); [|clean_leaf].
    pose proof (skip_ws_suffix r2) as S2.
    assert (Q3 : suffix (skip_ws r2) s) by eauto using suffix_trans.
    destruct (IHi depth (skip_ws r2)) as (Hf' & Hsuf');
      [now apply (limits_ok_suffix depth _ s)|].
    destruct (scan_items _ f depth (skip_ws r2)) as [vs r3|e1|];
      [|clean_fail Hf'|clean_leaf].
    specialize (Hsuf' _ _ eq_refl). clean_leaf.
Qed.

(** On a text within the limits [json.loads] yields a value or raises
    [JSONDecodeError]. *)
Lemma json_loads_within (site : call_site) (s : str) :
  within_limits site s ->
  (exists v, json_loads site s = Ok v) \/ json_loads site s = Raise JSONDecodeError.
Proof.
  intros Hl.
  destruct (json_loads_result site s) as [Hv|(e & He & Hd)]; [now left|right].
  rewrite He. f_equal.
  unfold json_loads, json_decode in He.
  destruct (startswith [65279] s); [now injection He as <-|].
  destruct (scan_within (S (2 * length s))) as (Ho & _ & _).
  destruct (Ho (S (recursion_headroom site)) (skip_ws s)) as (Hf & _).
  { apply (limits_ok_suffix _ _ s); [apply skip_ws_suffix|exact Hl]. }
  destruct (scan_budget int_max_str_digits (S (2 * length s))) as (Hb & _ & _).
  pose proof (skip_ws_le s) as L.
  destruct (Hb (S (recursion_headroom site)) (skip_ws s)) as (Hne & _); [lia|].
  destruct (scan_once _ _ _ (skip_ws s)) as [v r|e0|].
  - destruct (skip_ws r); [discriminate|now injection He as <-].
  - injection He as <-. now apply Hf.
  - exfalso. now apply Hne.
Qed.

(* ===================================================================== *)
(** ** Facts about dictionaries and indices *)
(* ===================================================================== *)

Lemma dict_get_set_same (d : dict) (k : str) (v : value) :
  dict_get (dict_set d k v) k = Some v.
Proof.
  induction d as [|[k0 v0] d IH]; simpl.
  - now rewrite str_eqb_refl.
  - destruct (str_eqb k0 k) eqn:E; simpl; rewrite E; [reflexivity|exact IH].
Qed.

Lemma dict_get_set_other (d : dict) (k k' : str) (v : value) :
  k <> k' -> dict_get (dict_set d k v) k' = dict_get d k'.
Proof.
  intros Hne. induction d as [|[k0 v0] d IH]; simpl.
  - now rewrite (str_eqb_neq k k').
  - destruct (str_eqb k0 k) eqn:E; simpl.
    + apply str_eqb_eq in E. subst k0. now rewrite (str_eqb_neq k k').
    + now rewrite IH.
Qed.

(** [find] as an index: the first position holding the character. *)
Lemma find_index (c : N) (s : str) :
  In c s ->
  exists i : nat,
    find c s = Z.of_nat i /\ (i < length s)%nat
    /\ nth_error s i = Some c
    /\ forall k, (k < i)%nat -> nth_error s k <> Some c.
Proof.
  intros Hin. destruct (find_present c s Hin) as (pre & post & E & Hn & Hf).
  exists (length pre). subst s. repeat split.
  - exact Hf.
  - rewrite length_app. simpl. lia.
  - rewrite nth_error_app2, Nat.sub_diag by lia. reflexivity.
  - intros k Hk H. rewrite nth_error_app1 in H by exact Hk.
    apply nth_error_In in H. contradiction.
Qed.

(** [rfind] as an index: the last position holding the character. *)
Lemma rfind_index (c : N) (s : str) :
  In c s ->
  exists j : nat,
    rfind c s = Z.of_nat j /\ (j < length s)%nat
    /\ nth_error s j = Some c
    /\ forall k, (j < k)%nat -> nth_error s k <> Some c.
Proof.
  intros Hin. destruct (rfind_present c s Hin) as (pre & post & E & Hn & Hf).
  exists (length pre). subst s. repeat split.
  - exact Hf.
  - rewrite length_app. simpl. lia.
  - rewrite nth_error_app2, Nat.sub_diag by lia. reflexivity.
  - intros k Hk H. rewrite nth_error_app2 in H by lia.
    destruct (k - length pre)%nat as [|m] eqn:Em; [lia|].
    simpl in H. apply nth_error_In in H. contradiction.
Qed.

(** The slice, position by position. *)
Lemma json_slice_nth (s : str) (i j : nat) :
  find 123 s = Z.of_nat i -> rfind 125 s = Z.of_nat j ->
  (i < length s)%nat -> (j < length s)%nat ->
  forall k, nth_error (json_slice s) k
            = if (i + k <=? j)%nat then nth_error s (i + k) else None.
Proof.
  intros Hi Hj Li Lj k. unfold json_slice. rewrite Hi, Hj.
  replace (Z.of_nat j + 1)%Z with (Z.of_nat (S j)) by lia.
  rewrite py_slice_inside by lia.
  rewrite nth_error_firstn, nth_error_skipn.
  destruct (Nat.ltb_spec k (S j - i)), (Nat.leb_spec (i + k) j);
    try reflexivity; lia.
Qed.

(** With both braces present the guard lets the text through. *)
Lemma normalize_outcome (w : world) (s : str) :
  In 123 s -> In 125 s ->
  normalize w s = outcome w s (json_loads SliceDecode (json_slice s)).
Proof.
  intros H1 H2.
  destruct (find_index _ _ H1) as (i & Hi & _).
  destruct (rfind_index _ _ H2) as (j & Hj & _).
  unfold normalize, _parse_recipe_response, json_slice. cbn [as_text bind].
  rewrite Hi, Hj.
  destruct (Z.eqb_spec (Z.of_nat i) (-1)) as [E|_]; [lia|].
  destruct (Z.eqb_spec (Z.of_nat j + 1) 0) as [E|_]; [lia|].
  cbn [orb].
  destruct (json_loads _) as [[]|[]]; reflexivity.
Qed.

(** Without an opening or without a closing brace the guard raises
    [ValueError], which the second [except] clause re-raises. *)
Lemma normalize_no_braces (w : world) (s : str) :
  ~ In 123 s \/ ~ In 125 s -> normalize w s = Raise ValueError.
Proof.
  intros H. unfold normalize, _parse_recipe_response. cbn [as_text bind].
  destruct H as [H|H].
  - rewrite (find_absent _ _ H). reflexivity.
  - rewrite (rfind_absent _ _ H). cbn. now rewrite orb_true_r.
Qed.

(** The slice is empty or begins with the opening brace. *)
Lemma json_slice_shape (s : str) :
  In 123 s -> In 125 s -> json_slice s = [] \/ exists m, json_slice s = 123 :: m.
Proof.
  intros H1 H2.
  destruct (find_index _ _ H1) as (i & Hi & Li & Ni & _).
  destruct (rfind_index _ _ H2) as (j & Hj & Lj & _).
  pose proof (json_slice_nth s i j Hi Hj Li Lj 0) as H0.
  rewrite Nat.add_0_r in H0.
  destruct (json_slice s) as [|c m]; [now left|right].
  simpl in H0. destruct (i <=? j)%nat; [|discriminate].
  rewrite Ni in H0. injection H0 as ->. now exists m.
Qed.

(** With both braces present [normalize] returns a dict, the stamped
    decode or the fallback, unless the decoder hit a limit of the
    interpreter, whose exception is re-raised. *)
Lemma normalize_returns (w : world) (s : str) :
  In 123 s -> In 125 s ->
  (exists d, json_loads SliceDecode (json_slice s) = Ok (VDict d)
             /\ normalize w s = Ok (VDict (stamp w d)))
  \/ (json_loads SliceDecode (json_slice s) = Raise JSONDecodeError
      /\ normalize w s = Ok (_create_fallback_recipe w (VStr s)))
  \/ (exists e, (e = ValueError \/ e = RecursionError)
                /\ json_loads SliceDecode (json_slice s) = Raise e
                /\ normalize w s = Raise e).
Proof.
  intros H1 H2. rewrite (normalize_outcome w s H1 H2).
  destruct (json_loads_result SliceDecode (json_slice s))
    as [[v Hv]|(e & He & [->|[->| ->]])].
  - left. destruct (json_slice_shape s H1 H2) as [E|[m E]]; rewrite E in Hv.
    + rewrite json_loads_empty in Hv. discriminate.
    + destruct (json_loads_brace SliceDecode m v Hv) as [d ->].
      exists d. rewrite E, Hv. now split.
  - right. left. rewrite He. now split.
  - right. right. exists ValueError. rewrite He. repeat split. now left.
  - right. right. exists RecursionError. rewrite He. repeat split. now right.
Qed.

(** On a slice within the limits only the first two cases remain. *)
Lemma normalize_returns_within (w : world) (s : str) :
  In 123 s -> In 125 s -> within_limits SliceDecode (json_slice s) ->
  (exists d, json_loads SliceDecode (json_slice s) = Ok (VDict d)
             /\ normalize w s = Ok (VDict (stamp w d)))
  \/ (json_loads SliceDecode (json_slice s) = Raise JSONDecodeError
      /\ normalize w s = Ok (_create_fallback_recipe w (VStr s))).
Proof.
  intros H1 H2 Hl.
  destruct (normalize_returns w s H1 H2) as [H|[H|(e & He & Hj & _)]];
    [now left|now right|exfalso].
  destruct (json_loads_within SliceDecode _ Hl) as [[v Hv]|Hv];
    rewrite Hv in Hj; [discriminate|].
  injection Hj as <-. destruct He; discriminate.
Qed.

(* ===================================================================== *)
(** ** The response normaliser *)
(* ===================================================================== *)

Lemma hex_fixed_length (k : nat) (n : N) : length (hex_fixed k n) = k.
Proof.
  revert n; induction k as [|k IH]; intros n; simpl; [reflexivity|].
  rewrite length_app, IH. simpl. lia.
Qed.

(** A generated id has the 36 characters of a UUID. *)
Lemma fresh_id_length (w : world) : length (fresh_id w) = 36%nat.
Proof.
  unfold fresh_id, uuid_str.
  change (py "-") with [45].
  repeat rewrite ?length_app, ?length_firstn, ?length_skipn, ?hex_fixed_length.
  reflexivity.
Qed.

Lemma fresh_id_nonempty (w : world) : fresh_id w <> [].
Proof.
  intros H. pose proof (fresh_id_length w) as L. rewrite H in L. discriminate.
Qed.

Lemma timestamp_nonempty (w : world) : timestamp w <> [].
Proof.
  unfold timestamp, isoformat. change (py "-") with [45].
  intros H. apply app_eq_nil in H as [_ H]. discriminate.
Qed.

Lemma stamp_id (w : world) (d : dict) :
  dict_get (stamp w d) (py "id") = Some (VStr (fresh_id w)).
Proof.
  unfold stamp.
  rewrite !dict_get_set_other by (intros H; vm_compute in H; discriminate).
  apply dict_get_set_same.
Qed.

Lemma stamp_created_at (w : world) (d : dict) :
  dict_get (stamp w d) (py "created_at") = Some (VStr (timestamp w)).
Proof.
  unfold stamp.
  rewrite dict_get_set_other by (intros H; vm_compute in H; discriminate).
  apply dict_get_set_same.
Qed.

Lemma stamp_source (w : world) (d : dict) :
  dict_get (stamp w d) (py "source") = Some (VStr (py "ai_generated")).
Proof. unfold stamp. apply dict_get_set_same. Qed.

Lemma stamp_other (w : world) (d : dict) (k : str) :
  k <> py "id" -> k <> py "created_at" -> k <> py "source" ->
  dict_get (stamp w d) k = dict_get d k.
Proof.
  intros H1 H2 H3. unfold stamp.
  rewrite !dict_get_set_other by congruence. reflexivity.
Qed.

(** In the statements below 123 and 125 are the code points of the
    opening and of the closing brace. *)

(** C1 (as amended).  For a text that contains both an opening and a
    closing brace [normalize] returns a recipe with a non-empty [id]
    and a non-empty [created_at], or else re-raises what [json.loads]
    raised at a limit of the interpreter: the [ValueError] of an integer
    with too many digits or the [RecursionError] of too deep a nesting.
    It does return a recipe whenever the slice stays within the limits
    (no digit run long enough to be refused, no more opening braces and
    brackets than containers can be entered).  When either brace is
    missing it raises [ValueError] instead of building the fallback
    recipe. *)
Theorem normalize_returns_recipe_iff_braces (w : world) (rawText : str) :
  (In 123 rawText -> In 125 rawText ->
   (exists recipe id created,
      normalize w rawText = Ok (VDict recipe)
      /\ dict_get recipe (py "id") = Some (VStr id) /\ id <> []
      /\ dict_get recipe (py "created_at") = Some (VStr created) /\ created <> [])
   \/ (exists e,
        (e = ValueError \/ e = RecursionError)
        /\ json_loads SliceDecode (json_slice rawText) = Raise e
        /\ normalize w rawText = Raise e))
  /\ (In 123 rawText -> In 125 rawText ->
      within_limits SliceDecode (json_slice rawText) ->
      exists recipe id created,
        normalize w rawText = Ok (VDict recipe)
        /\ dict_get recipe (py "id") = Some (VStr id) /\ id <> []
        /\ dict_get recipe (py "created_at") = Some (VStr created) /\ created <> [])
  /\ (~ In 123 rawText \/ ~ In 125 rawText ->
      normalize w rawText = Raise ValueError).
Proof.
  assert (R : forall d,
             normalize w rawText = Ok (VDict (stamp w d))
             \/ normalize w rawText = Ok (_create_fallback_recipe w (VStr rawText)) ->
             exists recipe id created,
               normalize w rawText = Ok (VDict recipe)
               /\ dict_get recipe (py "id") = Some (VStr id) /\ id <> []
               /\ dict_get recipe (py "created_at") = Some (VStr created)
               /\ created <> []).
  { intros d [-> | ->].
    - exists (stamp w d), (fresh_id w), (timestamp w).
      repeat split;
        auto using stamp_id, stamp_created_at, fresh_id_nonempty, timestamp_nonempty.
    - eexists _, (fresh_id w), (timestamp w).
      repeat split; auto using fresh_id_nonempty, timestamp_nonempty. }
  split; [|split; [|apply normalize_no_braces]].
  - intros H1 H2.
    destruct (normalize_returns w rawText H1 H2) as [(d & _ & Hn)|[[_ Hn]|He]].
    + left. apply (R d). now left.
    + left. apply (R []). now right.
    + now right.
  - intros H1 H2 Hl.
    destruct (normalize_returns_within w rawText H1 H2 Hl) as [(d & _ & Hn)|[_ Hn]].
    + apply (R d). now left.
    + apply (R []). now right.
Qed.


(** C3.  When the slice decodes, the decoded fields are kept and [id],
    [created_at] and [source] are set by the normaliser, whatever the
    model supplied for them; the text with the pasta recipe gives the
    title and the servings of the model and generated provenance. *)
Theorem parsed_fields_kept_and_stamped (w : world) :
  (forall rawText v,
     In 123 rawText -> In 125 rawText ->
     json_loads SliceDecode (json_slice rawText) = Ok v ->
     exists d,
       v = VDict d
       /\ normalize w rawText = Ok (VDict (stamp w d))
       /\ dict_get (stamp w d) (py "id") = Some (VStr (fresh_id w))
       /\ dict_get (stamp w d) (py "created_at") = Some (VStr (timestamp w))
       /\ dict_get (stamp w d) (py "source") = Some (VStr (py "ai_generated"))
       /\ forall k, k <> py "id" -> k <> py "created_at" -> k <> py "source" ->
                    dict_get (stamp w d) k = dict_get d k)
  /\ normalize w (pyq "Here you go: {'title':'Pasta','servings':2} enjoy!")
     = Ok (VDict [(py "title", VStr (py "Pasta"));
                  (py "servings", VInt 2);
                  (py "id", VStr (fresh_id w));
                  (py "created_at", VStr (timestamp w));
                  (py "source", VStr (py "ai_generated"))])
  /\ normalize w (pyq "{'id':'mine','title':'Pasta','source':'model'}")
     = Ok (VDict [(py "id", VStr (fresh_id w));
                  (py "title", VStr (py "Pasta"));
                  (py "source", VStr (py "ai_generated"));
                  (py "created_at", VStr (timestamp w))]).
Proof.
  split; [|split].
  - intros rawText v H1 H2 Hv.
    destruct (normalize_returns w rawText H1 H2)
      as [(d & Hd & Hn)|[[Hd _]|(e & _ & Hd & _)]];
      [|congruence|congruence].
    exists d. rewrite Hd in Hv. injection Hv as <-.
    repeat split; auto using stamp_id, stamp_created_at, stamp_source.
    apply stamp_other.
  - rewrite normalize_outcome by (vm_compute; tauto).
    replace (json_loads SliceDecode (json_slice _))
      with (Ok (VDict [(py "title", VStr (py "Pasta")); (py "servings", VInt 2)]))
      by (vm_compute; reflexivity).
    unfold outcome, stamp.
    generalize (fresh_id w), (timestamp w). intros i t. reflexivity.
  - rewrite normalize_outcome by (vm_compute; tauto).
    replace (json_loads SliceDecode (json_slice _))
      with (Ok (VDict [(py "id", VStr (py "mine")); (py "title", VStr (py "Pasta"));
                       (py "source", VStr (py "model"))]))
      by (vm_compute; reflexivity).
    unfold outcome, stamp.
    generalize (fresh_id w), (timestamp w). intros i t. reflexivity.
Qed.

(** C4.  With both braces present the text handed to [json.loads] is
    exactly the characters from the first opening brace to the last
    closing brace of the whole text, and its decoding decides the
    result; the text with two brace blocks is taken as one slice, which
    is not JSON, and the fallback is returned. *)
Theorem slice_spans_first_to_last (w : world) :
  (forall rawText,
     In 123 rawText -> In 125 rawText ->
     exists i j : nat,
       find 123 rawText = Z.of_nat i /\ rfind 125 rawText = Z.of_nat j
       /\ nth_error rawText i = Some 123
       /\ (forall k, (k < i)%nat -> nth_error rawText k <> Some 123)
       /\ nth_error rawText j = Some 125
       /\ (forall k, (j < k)%nat -> nth_error rawText k <> Some 125)
       /\ (forall k, nth_error (json_slice rawText) k
                     = if (i + k <=? j)%nat then nth_error rawText (i + k) else None)
       /\ normalize w rawText = outcome w rawText (json_loads SliceDecode (json_slice rawText)))
  /\ (forall pre mid post,
       ~ In 123 pre -> ~ In 125 post ->
       json_slice (pre ++ 123 :: mid ++ 125 :: post) = 123 :: mid ++ [125])
  /\ (let two_blocks := pyq "{'a':1} middle text {'title':'X'}" in
      json_slice two_blocks = two_blocks
      /\ json_loads SliceDecode two_blocks = Raise JSONDecodeError
      /\ normalize w two_blocks = Ok (_create_fallback_recipe w (VStr two_blocks))).
Proof.
  split; [|split].
  - intros rawText H1 H2.
    destruct (find_index _ _ H1) as (i & Hi & Li & Ni & Fi).
    destruct (rfind_index _ _ H2) as (j & Hj & Lj & Nj & Fj).
    exists i, j. repeat split; auto.
    + now apply json_slice_nth.
    + now apply normalize_outcome.
  - intros pre mid post Hpre Hpost. unfold json_slice.
    assert (Hf : find 123 (pre ++ 123 :: mid ++ 125 :: post) = Z.of_nat (length pre)).
    { unfold find.
      destruct (find_from_spec 123 (pre ++ 123 :: mid ++ 125 :: post) 0)
        as [[Hn _]|(p & q & E & Hn & Hf)].
      - exfalso. apply Hn. apply in_or_app. right. now left.
      - rewrite Hf. cut (length p = length pre); [lia|].
        destruct (Nat.lt_trichotomy (length p) (length pre)) as [L|[L|L]];
          [exfalso|exact L|exfalso].
        + apply Hpre. apply nth_error_In with (n := length p).
          rewrite <- (nth_error_app1 pre (123 :: mid ++ 125 :: post)) by exact L.
          rewrite E, nth_error_app2, Nat.sub_diag by lia. reflexivity.
        + apply Hn. apply nth_error_In with (n := length pre).
          rewrite <- (nth_error_app1 p (123 :: q)) by exact L.
          rewrite <- E, nth_error_app2, Nat.sub_diag by lia. reflexivity. }
    assert (Hr : rfind 125 (pre ++ 123 :: mid ++ 125 :: post)
                 = Z.of_nat (length (pre ++ 123 :: mid))).
    { unfold rfind.
      replace (pre ++ 123 :: mid ++ 125 :: post)
        with ((pre ++ 123 :: mid) ++ 125 :: post)
        by (rewrite <- app_assoc; reflexivity).
      set (a := pre ++ 123 :: mid).
      destruct (rfind_from_spec 125 (a ++ 125 :: post) 0 (-1))
        as [[Hn _]|(p & q & E & Hn & Hg)].
      - exfalso. apply Hn. apply in_or_app. right. now left.
      - rewrite Hg. cut (length p = length a); [lia|].
        destruct (Nat.lt_trichotomy (length p) (length a)) as [L|[L|L]];
          [exfalso|exact L|exfalso].
        + apply Hn.
          assert (X : nth_error (p ++ 125 :: q) (length a) = Some 125).
          { rewrite <- E, nth_error_app2, Nat.sub_diag by lia. reflexivity. }
          rewrite nth_error_app2 in X by lia.
          destruct (length a - length p)%nat as [|m] eqn:Em; [lia|].
          simpl in X. now apply nth_error_In in X.
        + apply Hpost.
          assert (X : nth_error (a ++ 125 :: post) (length p) = Some 125).
          { rewrite E, nth_error_app2, Nat.sub_diag by lia. reflexivity. }
          rewrite nth_error_app2 in X by lia.
          destruct (length p - length a)%nat as [|m] eqn:Em; [lia|].
          simpl in X. now apply nth_error_In in X. }
    rewrite Hf, Hr. apply py_slice_between.
  - cbv zeta. split; [vm_compute; reflexivity|].
    split; [vm_compute; reflexivity|].
    rewrite normalize_outcome by (vm_compute; tauto).
    replace (json_loads SliceDecode (json_slice _)) with (@Raise value JSONDecodeError)
      by (vm_compute; reflexivity).
    reflexivity.
Qed.

(** C10.  When both braces occur but the last closing brace is not
    after the first opening brace, the guard is passed, the slice is
    empty, it is not JSON, and [normalize] returns the fallback
    recipe. *)
Theorem reversed_braces_fall_back (w : world) (rawText : str) :
  In 123 rawText -> In 125 rawText ->
  (rfind 125 rawText <= find 123 rawText)%Z ->
  find 123 rawText <> (-1)%Z
  /\ (rfind 125 rawText + 1)%Z <> 0%Z
  /\ json_slice rawText = []
  /\ json_loads SliceDecode (json_slice rawText) = Raise JSONDecodeError
  /\ normalize w rawText = Ok (_create_fallback_recipe w (VStr rawText)).
Proof.
  intros H1 H2 Hle.
  destruct (find_index _ _ H1) as (i & Hi & Li & Ni & _).
  destruct (rfind_index _ _ H2) as (j & Hj & Lj & Nj & _).
  assert (Hs : json_slice rawText = []).
  { destruct (json_slice rawText) as [|c m] eqn:E; [reflexivity|exfalso].
    pose proof (json_slice_nth rawText i j Hi Hj Li Lj 0) as H0.
    rewrite E, Nat.add_0_r in H0. simpl in H0.
    destruct (Nat.leb_spec i j) as [L|L]; [|discriminate].
    assert (i = j) by lia. subst j. rewrite Ni in Nj. discriminate. }
  split; [lia|]. split; [lia|]. split; [exact Hs|].
  rewrite (normalize_outcome w rawText H1 H2), Hs.
  split; reflexivity.
Qed.

(* ===================================================================== *)
(** ** The prompt builder *)
(* ===================================================================== *)

Lemma texts_map_VStr (l : list str) : texts (map VStr l) = Ok l.
Proof. induction l as [|x l IH]; simpl; [reflexivity|now rewrite IH]. Qed.

Lemma str_join_texts (sep : str) (l : list str) :
  str_join sep (VList (map VStr l)) = Ok (join sep l).
Proof. simpl. now rewrite texts_map_VStr. Qed.

Lemma unlines_app (a b : list str) : unlines (a ++ b) = unlines a ++ unlines b.
Proof. unfold unlines. now rewrite map_app, concat_app. Qed.

Lemma unlines_cons (l : str) (ls : list str) :
  unlines (l :: ls) = l ++ nl :: unlines ls.
Proof. unfold unlines. simpl. now rewrite <- app_assoc. Qed.

(** The prompt is its lines. *)
Lemma build_lines (r : RecipeRequest) : build r = Ok (unlines (prompt_lines r)).
Proof.
  destruct r as [ing dr ct mt diff].
  unfold build, _build_prompt, prompt_lines, prompt_footer.
  cbn [ingredients dietaryRestrictions cuisineType mealType difficulty].
  rewrite str_join_texts. cbn [bind format].
  rewrite !unlines_app.
  destruct dr as [|d0 dr]; cbn [truthy map bind dietary_line].
  - destruct ct as [[|c0 ct]|], mt as [[|m0 mt]|];
      cbn [optional_text truthy optional_line format];
      rewrite ?unlines_cons; cbn [unlines map concat];
      repeat (rewrite <- app_assoc || rewrite <- app_comm_cons); reflexivity.
  - change (VStr d0 :: map VStr dr) with (map VStr (d0 :: dr)).
    rewrite str_join_texts. cbn [bind].
    destruct ct as [[|c0 ct]|], mt as [[|m0 mt]|];
      cbn [optional_text truthy optional_line format];
      rewrite ?unlines_cons; cbn [unlines map concat];
      repeat (rewrite <- app_assoc || rewrite <- app_comm_cons); reflexivity.
Qed.

Lemma no_newline_b_sound (s : str) : no_newline_b s = true -> no_newline s.
Proof.
  unfold no_newline_b, no_newline. intros H Hin.
  rewrite forallb_forall in H. specialize (H _ Hin).
  now rewrite N.eqb_refl in H.
Qed.

Lemma no_newline_app (a b : str) :
  no_newline a -> no_newline b -> no_newline (a ++ b).
Proof.
  unfold no_newline. intros Ha Hb H. apply in_app_or in H. tauto.
Qed.

Lemma no_newline_join (sep : str) (l : list str) :
  no_newline sep -> Forall no_newline l -> no_newline (join sep l).
Proof.
  intros Hs Hl. induction Hl as [|x l Hx Hl IH]; [intros []|].
  destruct l as [|y l]; [exact Hx|].
  change (join sep (x :: y :: l)) with (x ++ sep ++ join sep (y :: l)).
  auto using no_newline_app.
Qed.

(** A line and what follows its line feed. *)
Lemma lines_app_nl (l t : str) :
  no_newline l -> lines (l ++ nl :: t) = l :: lines t.
Proof.
  unfold no_newline. induction l as [|c l IH]; intros Hn.
  - reflexivity.
  - cbn [app lines].
    destruct (N.eqb_spec c nl) as [->|_]; [exfalso; apply Hn; now left|].
    rewrite IH; [reflexivity|]. intros H. apply Hn. now right.
Qed.

Lemma lines_unlines (ls : list str) :
  Forall no_newline ls -> lines (unlines ls) = ls ++ [[]].
Proof.
  induction 1 as [|l ls Hl _ IH]; [reflexivity|].
  rewrite unlines_cons, lines_app_nl, IH by exact Hl. reflexivity.
Qed.

Lemma has_line_unlines (label : str) (ls : list str) :
  Forall no_newline ls -> label <> [] ->
  has_line label (unlines ls) = existsb (startswith label) ls.
Proof.
  intros Hl Hne. unfold has_line. rewrite lines_unlines by exact Hl.
  rewrite existsb_app. destruct label; [contradiction|].
  simpl. now rewrite orb_false_r.
Qed.

Lemma clash_startswith (p q x : str) :
  clash p q = true -> startswith p (q ++ x) = false.
Proof.
  revert q; induction p as [|a p IH]; intros [|b q] H; simpl in *;
    try discriminate.
  destruct (a =? b); simpl in *; [now apply IH|reflexivity].
Qed.

Lemma contains_refl (x : str) : contains x x.
Proof. exists [], []. now rewrite app_nil_r. Qed.

Lemma contains_trans (x y z : str) : contains x y -> contains y z -> contains x z.
Proof.
  intros (a & b & ->) (c & d & ->). exists (c ++ a), (b ++ d).
  now rewrite <- !app_assoc.
Qed.

Lemma contains_app_l (x y pre : str) : contains x y -> contains x (pre ++ y).
Proof.
  intros (a & b & ->). exists (pre ++ a), b. now rewrite <- app_assoc.
Qed.

Lemma contains_app_r (x y post : str) : contains x y -> contains x (y ++ post).
Proof.
  intros (a & b & ->). exists a, (b ++ post). now rewrite <- !app_assoc.
Qed.

Lemma contains_join (sep x : str) (l : list str) :
  In x l -> contains x (join sep l).
Proof.
  induction l as [|y l IH]; [intros []|].
  intros Hin. destruct l as [|z l].
  - destruct Hin as [->|[]]. apply contains_refl.
  - change (join sep (y :: z :: l)) with (y ++ sep ++ join sep (z :: l)).
    destruct Hin as [->|Hin].
    + apply contains_app_r, contains_refl.
    + apply contains_app_l, contains_app_l, IH, Hin.
Qed.

Lemma contains_unlines (l : str) (ls : list str) :
  In l ls -> contains (l ++ [nl]) (unlines ls).
Proof.
  intros Hin. apply in_split in Hin as (a & b & ->).
  rewrite unlines_app, unlines_cons.
  apply contains_app_l. exists [], (unlines b). simpl.
  now rewrite <- app_assoc.
Qed.

Lemma footer_single_lines : Forall no_newline prompt_footer_lines.
Proof.
  apply Forall_forall. intros l Hl. apply no_newline_b_sound.
  assert (H : forallb no_newline_b prompt_footer_lines = true)
    by (vm_compute; reflexivity).
  rewrite forallb_forall in H. now apply H.
Qed.

Lemma prompt_lines_single (r : RecipeRequest) :
  single_line_request r -> Forall no_newline (prompt_lines r).
Proof.
  intros (Hi & Hd & Hc & Hm & Hf). unfold prompt_lines.
  assert (Hsep : no_newline (py ", "))
    by (apply no_newline_b_sound; reflexivity).
  apply Forall_app; split; [|apply Forall_app; split;
    [|apply Forall_app; split; [|apply Forall_app; split]]].
  - repeat constructor.
    + apply no_newline_app; [apply no_newline_b_sound; reflexivity|].
      now apply no_newline_join.
    + intros [].
    + apply no_newline_b_sound; reflexivity.
    + apply no_newline_app; [apply no_newline_b_sound; reflexivity|exact Hf].
  - unfold dietary_line. destruct (dietaryRestrictions r) eqn:E; constructor;
      [|constructor].
    apply no_newline_app; [apply no_newline_b_sound; reflexivity|].
    now apply no_newline_join.
  - unfold optional_line. destruct (cuisineType r) as [[|c s]|] eqn:E;
      repeat constructor.
    apply no_newline_app; [apply no_newline_b_sound; reflexivity|].
    now apply Hc.
  - unfold optional_line. destruct (mealType r) as [[|c s]|] eqn:E;
      repeat constructor.
    apply no_newline_app; [apply no_newline_b_sound; reflexivity|].
    now apply Hm.
  - apply footer_single_lines.
Qed.

(** Which lines of a prompt begin with one of the three labels. *)
Lemma labelled_lines (r : RecipeRequest) :
  existsb (startswith dietary_label) (prompt_lines r)
  = match dietaryRestrictions r with [] => false | _ :: _ => true end
  /\ existsb (startswith cuisine_label) (prompt_lines r)
    = match cuisineType r with Some (_ :: _) => true | _ => false end
  /\ existsb (startswith meal_label) (prompt_lines r)
    = match mealType r with Some (_ :: _) => true | _ => false end.
Proof.
  unfold prompt_lines. rewrite !existsb_app.
  assert (Hd : forall label,
             clash label opening_line = true ->
             clash label difficulty_label = true ->
             startswith label [] = false ->
             startswith label (py "Requirements:") = false ->
             existsb (startswith label)
               [opening_line ++ join (py ", ") (ingredients r); [];
                py "Requirements:"; difficulty_label ++ difficulty r] = false).
  { intros label H1 H2 H3 H4. cbn [existsb].
    rewrite H3, H4, !clash_startswith by assumption. reflexivity. }
  split; [|split];
    rewrite Hd by (vm_compute; reflexivity);
    match goal with
    | |- context [existsb ?f prompt_footer_lines] =>
        replace (existsb f prompt_footer_lines) with false
          by (vm_compute; reflexivity)
    end;
    unfold dietary_line, optional_line;
    destruct (dietaryRestrictions r) as [|d0 dr];
    destruct (cuisineType r) as [[|c0 c]|];
    destruct (mealType r) as [[|m0 m]|];
    cbn [existsb orb];
    rewrite ?startswith_app, ?clash_startswith by (vm_compute; reflexivity);
    reflexivity.
Qed.

(** C7 (as amended).  For every request the prompt contains the
    ingredients joined by a comma and a space (hence every ingredient)
    and the difficulty line; it contains the dietary-restrictions line
    when that list is not empty, and the cuisine and meal-type lines
    when the value is given and not the empty text.  Conversely, for a
    request none of whose texts contains a line feed, a line beginning
    with one of the three labels is present exactly in those cases. *)
Theorem prompt_contents (r : RecipeRequest) :
  exists prompt,
    build r = Ok prompt
    /\ contains (join (py ", ") (ingredients r)) prompt
    /\ (forall i, In i (ingredients r) -> contains i prompt)
    /\ contains (difficulty_label ++ difficulty r ++ [nl]) prompt
    /\ (dietaryRestrictions r <> [] ->
        contains (dietary_label ++ join (py ", ") (dietaryRestrictions r) ++ [nl])
                 prompt)
    /\ (forall c, cuisineType r = Some c -> c <> [] ->
        contains (cuisine_label ++ c ++ [nl]) prompt)
    /\ (forall m, mealType r = Some m -> m <> [] ->
        contains (meal_label ++ m ++ [nl]) prompt)
    /\ (single_line_request r ->
        (has_line dietary_label prompt = true <-> dietaryRestrictions r <> [])
        /\ (has_line cuisine_label prompt = true
            <-> exists c, cuisineType r = Some c /\ c <> [])
        /\ (has_line meal_label prompt = true
            <-> exists m, mealType r = Some m /\ m <> [])).
Proof.
  exists (unlines (prompt_lines r)). split; [apply build_lines|].
  assert (Hjoin : contains (join (py ", ") (ingredients r))
                           (unlines (prompt_lines r))).
  { apply contains_trans
      with ((opening_line ++ join (py ", ") (ingredients r)) ++ [nl]).
    - apply contains_app_r, contains_app_l, contains_refl.
    - apply contains_unlines. unfold prompt_lines. now left. }
  split; [exact Hjoin|].
  split.
  { intros i Hi. eapply contains_trans; [|exact Hjoin]. now apply contains_join. }
  split.
  { rewrite app_assoc. apply contains_unlines. unfold prompt_lines.
    cbn [app]. do 3 right. now left. }
  split.
  { intros Hne. rewrite app_assoc. apply contains_unlines. unfold prompt_lines.
    apply in_or_app. right. apply in_or_app. left.
    destruct (dietaryRestrictions r); [contradiction|now left]. }
  split.
  { intros c Hc Hne. rewrite app_assoc. apply contains_unlines.
    unfold prompt_lines. rewrite Hc.
    apply in_or_app. right. apply in_or_app. right. apply in_or_app. left.
    destruct c; [contradiction|now left]. }
  split.
  { intros m Hm Hne. rewrite app_assoc. apply contains_unlines.
    unfold prompt_lines. rewrite Hm.
    do 3 (apply in_or_app; right). apply in_or_app. left.
    destruct m; [contradiction|now left]. }
  intros Hs. pose proof (prompt_lines_single r Hs) as Hl.
  destruct (labelled_lines r) as (Ld & Lc & Lm).
  rewrite !has_line_unlines by (exact Hl || (intros H; vm_compute in H; discriminate)).
  rewrite Ld, Lc, Lm.
  split; [|split].
  - destruct (dietaryRestrictions r); split; congruence.
  - destruct (cuisineType r) as [[|c0 c]|]; split;
      try discriminate; try (intros (x & Hx & Hn); congruence).
    intros _. eexists. split; [reflexivity|discriminate].
  - destruct (mealType r) as [[|m0 m]|]; split;
      try discriminate; try (intros (x & Hx & Hn); congruence).
    intros _. eexists. split; [reflexivity|discriminate].
Qed.

(* ===================================================================== *)
(** ** The handler *)
(* ===================================================================== *)

(** Every parameter is read with [get], which a decoded dict has. *)
Lemma extract_params_dict (d : dict) :
  extract_params (VDict d)
  = Ok {| p_ingredients := dict_get_default d (py "ingredients") (VList []);
          p_dietary_restrictions :=
            dict_get_default d (py "dietary_restrictions") (VList []);
          p_cuisine_type := dict_get_default d (py "cuisine_type") VNone;
          p_meal_type := dict_get_default d (py "meal_type") VNone;
          p_difficulty := dict_get_default d (py "difficulty") (VStr (py "medium"));
          p_save_to_db := dict_get_default d (py "save_to_db") (VBool true) |}.
Proof. reflexivity. Qed.

(** A body that is not a dict has no [get]. *)
Lemma extract_params_ok (body : value) (ps : params) :
  extract_params body = Ok ps -> exists d, body = VDict d.
Proof. destruct body; try discriminate. intros _. now eexists. Qed.

(** [generate_recipe] does not look at the record store. *)
Lemma generate_recipe_ignores_put_item
    (w : world) (p : value -> result unit) (a b c d e : value) :
  generate_recipe (with_put_item w p) a b c d e = generate_recipe w a b c d e.
Proof. reflexivity. Qed.

(** [generate_recipe] calls the inference endpoint at most once and
    nothing else. *)
Lemma generate_recipe_trace (w : world) (a b c d e : value) :
  snd (generate_recipe w a b c d e) = []
  \/ exists m sent, snd (generate_recipe w a b c d e) = [InvokeModel m sent].
Proof.
  unfold generate_recipe. destruct (_build_prompt a b c d e); [right|left].
  - now eexists _, _.
  - reflexivity.
Qed.

(** The three answers of the handler. *)
Lemma lambda_handler_cases (w : world) (event : dict) :
  fst (lambda_handler w event) = bad_request
  \/ fst (lambda_handler w event) = server_error
  \/ exists recipe, fst (lambda_handler w event) = recipe_response recipe.
Proof.
  unfold lambda_handler, lambda_handler_try.
  destruct (bind (parse_body event) _) as [ps|e]; [|right; left; reflexivity].
  destruct (negb (truthy (p_ingredients ps))); [left; reflexivity|].
  destruct (generate_recipe _ _ _ _ _ _) as [[recipe|e] tr].
  - right. right. now exists recipe.
  - right. left. reflexivity.
Qed.


(** C6.  The answer does not depend on what the record store does;
    when a recipe was generated the answer is the success response
    carrying it, and the store was asked to save exactly when
    [save_to_db] is true; with [save_to_db] false the store is never
    called. *)
Theorem persistence_is_best_effort (w : world) (event : dict) :
  (forall p1 p2,
     fst (lambda_handler (with_put_item w p1) event)
     = fst (lambda_handler (with_put_item w p2) event))
  /\ (forall body ps recipe tr,
       parse_body event = Ok body ->
       extract_params body = Ok ps ->
       truthy (p_ingredients ps) = true ->
       generate_recipe w (p_ingredients ps) (p_dietary_restrictions ps)
         (p_cuisine_type ps) (p_meal_type ps) (p_difficulty ps) = (Ok recipe, tr) ->
       fst (lambda_handler w event) = recipe_response recipe
       /\ snd (lambda_handler w event)
          = if truthy (p_save_to_db ps) then tr ++ [PutItem recipe] else tr)
  /\ (forall d,
       parse_body event = Ok (VDict d) ->
       dict_get d (py "save_to_db") = Some (VBool false) ->
       forall item, ~ In (PutItem item) (snd (lambda_handler w event))).
Proof.
  split; [|split].
  - intros p1 p2. unfold lambda_handler, lambda_handler_try.
    destruct (bind (parse_body event) _) as [ps|e]; [|reflexivity].
    destruct (negb (truthy (p_ingredients ps))); [reflexivity|].
    rewrite !generate_recipe_ignores_put_item.
    destruct (generate_recipe _ _ _ _ _ _) as [[recipe|e] tr]; reflexivity.
  - intros body0 ps recipe tr Hb Hp Hi Hg.
    unfold lambda_handler, lambda_handler_try.
    rewrite Hb. cbn [bind]. rewrite Hp, Hi. cbn [negb]. rewrite Hg.
    destruct (truthy (p_save_to_db ps)); [|now split].
    destruct (put_item w recipe); now split.
  - intros d Hb Hs item.
    unfold lambda_handler, lambda_handler_try.
    rewrite Hb. cbn [bind]. rewrite extract_params_dict.
    cbn [p_ingredients p_dietary_restrictions p_cuisine_type p_meal_type
         p_difficulty p_save_to_db].
    destruct (negb (truthy _)); [intros []|].
    replace (dict_get_default d (py "save_to_db") (VBool true)) with (VBool false)
      by (unfold dict_get_default; now rewrite Hs).
    cbn [truthy].
    match goal with
    | |- context [generate_recipe ?w ?a ?b ?c ?d ?e] =>
        pose proof (generate_recipe_trace w a b c d e) as Ht;
        destruct (generate_recipe w a b c d e) as [[recipe|e0] tr]
    end; cbn [fst snd] in *;
      destruct Ht as [-> | (m & sent & ->)]; cbn [In]; intuition discriminate.
Qed.

(** C9.  Every answer of the handler has status 200, 400 or 500 and
    the same four headers, and the bodies of the 400 and 500 answers are
    the two fixed error objects. *)
Theorem responses_are_uniform (w : world) (event : dict) :
  let r := fst (lambda_handler w event) in
  (statusCode r = 200 \/ statusCode r = 400 \/ statusCode r = 500)%Z
  /\ headers r
     = [(py "Content-Type", py "application/json");
        (py "Access-Control-Allow-Origin", py "*");
        (py "Access-Control-Allow-Headers", py "Content-Type,Authorization");
        (py "Access-Control-Allow-Methods", py "POST,OPTIONS")]
  /\ (statusCode r = 400%Z ->
      body r = pyq "{'error': 'Ingredients list is required'}")
  /\ (statusCode r = 500%Z ->
      body r = pyq "{'error': 'Internal server error'}").
Proof.
  cbv zeta.
  destruct (lambda_handler_cases w event) as [-> | [-> | [recipe ->]]].
  - repeat split; auto; discriminate.
  - repeat split; auto; discriminate.
  - repeat split; auto; discriminate.
Qed.

(* ===================================================================== *)
(** ** Further properties of the handler and of the generator *)
(* ===================================================================== *)

(** The [try] block once the body is known to be a dict. *)
Lemma lambda_handler_try_dict (w : world) (event d : dict) :
  parse_body event = Ok (VDict d) ->
  lambda_handler_try w event
  = if negb (truthy (p_ingredients (params_of d))) then (Ok bad_request, [])
    else
      match generate_recipe w (p_ingredients (params_of d))
              (p_dietary_restrictions (params_of d)) (p_cuisine_type (params_of d))
              (p_meal_type (params_of d)) (p_difficulty (params_of d)) with
      | (Raise e, tr) => (Raise e, tr)
      | (Ok recipe, tr) =>
          (Ok (recipe_response recipe),
           if truthy (p_save_to_db (params_of d)) then tr ++ [PutItem recipe] else tr)
      end.
Proof.
  intros Hb. unfold lambda_handler_try. rewrite Hb. cbn [bind].
  rewrite extract_params_dict. fold (params_of d).
  destruct (negb _); [reflexivity|].
  destruct (generate_recipe _ _ _ _ _ _) as [[recipe|e] tr]; [|reflexivity].
  destruct (truthy (p_save_to_db _)); [|reflexivity].
  destruct (put_item w recipe); reflexivity.
Qed.

(** A body that is not a dict stops the [try] block before any call. *)
Lemma lambda_handler_try_no_dict (w : world) (event : dict) :
  (forall d, parse_body event <> Ok (VDict d)) ->
  exists e, lambda_handler_try w event = (Raise e, []).
Proof.
  intros Hn. unfold lambda_handler_try.
  destruct (parse_body event) as [v|e]; [|now exists e].
  destruct v; try (eexists; reflexivity).
  exfalso. now apply (Hn entries).
Qed.

(** [generate_recipe] in terms of the prompt and of the reply. *)
Lemma generate_recipe_with_prompt (w : world) (ps : params) (prompt : str) :
  prompt_of ps = Ok prompt ->
  generate_recipe w (p_ingredients ps) (p_dietary_restrictions ps)
    (p_cuisine_type ps) (p_meal_type ps) (p_difficulty ps)
  = (bind (reply w prompt) (_parse_recipe_response w), [invocation w prompt]).
Proof.
  unfold prompt_of, generate_recipe, reply, generated_text, invocation.
  intros ->.
  destruct (invoke_model w _ _) as [payload|e]; [|reflexivity]. cbn [bind].
  destruct (json_loads ReplyDecode payload) as [rb|e]; [|reflexivity]. cbn [bind].
  destruct (subscript_key rb _) as [content|e]; [|reflexivity]. cbn [bind].
  destruct (subscript_0 content) as [first|e]; [|reflexivity]. cbn [bind].
  destruct (subscript_key first _) as [t|e]; reflexivity.
Qed.

Lemma generate_recipe_without_prompt (w : world) (ps : params) (e : exn) :
  prompt_of ps = Raise e ->
  generate_recipe w (p_ingredients ps) (p_dietary_restrictions ps)
    (p_cuisine_type ps) (p_meal_type ps) (p_difficulty ps)
  = (Raise e, []).
Proof. unfold prompt_of, generate_recipe. now intros ->. Qed.

(** A recipe is only produced after the inference endpoint was called. *)
Lemma generate_recipe_ok_trace (w : world) (a b c d e : value)
    (recipe : value) (tr : trace) :
  generate_recipe w a b c d e = (Ok recipe, tr) ->
  exists m sent, tr = [InvokeModel m sent].
Proof.
  unfold generate_recipe. destruct (_build_prompt a b c d e); [|discriminate].
  intros H. injection H as _ <-. now eexists _, _.
Qed.

(** Anything but a text holding both braces makes the normaliser raise. *)
Lemma parse_unbraced_raises (w : world) (v : value) :
  ~ braced v -> exists e, _parse_recipe_response w v = Raise e.
Proof.
  intros Hn. destruct v as [| | | |text| |]; try (eexists; reflexivity).
  exists ValueError. apply normalize_no_braces.
  destruct (in_dec N.eq_dec 123 text) as [H1|H1]; [|now left].
  destruct (in_dec N.eq_dec 125 text) as [H2|H2]; [|now right].
  exfalso. apply Hn. now exists text.
Qed.

(** The validation error is given exactly when the body is a JSON
    object whose [ingredients] are absent or falsy ([[]], [""], [0],
    [null], [false], [{}]); no collaborator is called then. *)
Theorem validation_error_iff (w : world) (event : dict) :
  (statusCode (fst (lambda_handler w event)) = 400%Z
   <-> exists d, parse_body event = Ok (VDict d)
                 /\ truthy (dict_get_default d (py "ingredients") (VList [])) = false)
  /\ (statusCode (fst (lambda_handler w event)) = 400%Z ->
      lambda_handler w event = (bad_request, [])).
Proof.
  assert (D : (exists d, parse_body event = Ok (VDict d))
              \/ forall d, parse_body event <> Ok (VDict d)).
  { destruct (parse_body event) as [[]|]; try (right; intros d0 H; discriminate).
    left. now eexists. }
  unfold lambda_handler.
  destruct D as [[d Hb]|Hn].
  - rewrite (lambda_handler_try_dict w event d Hb). cbn [params_of p_ingredients].
    destruct (truthy (dict_get_default d (py "ingredients") (VList []))) eqn:Ht;
      cbn [negb].
    + destruct (generate_recipe _ _ _ _ _ _) as [[recipe|e] tr]; cbn [fst].
      * split; [split; [discriminate|]|discriminate].
        intros (d' & Hb' & Ht'). rewrite Hb in Hb'. injection Hb' as <-. congruence.
      * split; [split; [discriminate|]|discriminate].
        intros (d' & Hb' & Ht'). rewrite Hb in Hb'. injection Hb' as <-. congruence.
    + split; [split; [|reflexivity]|reflexivity].
      intros _. now exists d.
  - destruct (lambda_handler_try_no_dict w event Hn) as [e ->]. cbn [fst].
    split; [split; [discriminate|]|discriminate].
    intros (d & Hb & _). now apply Hn in Hb.
Qed.

(** The calls of one invocation: none; or the inference endpoint alone;
    or the inference endpoint and then the record store, which is given
    the very recipe the success response carries.  A success response
    is never given without the inference endpoint having been called,
    and a validation error never after it. *)
Theorem collaborators_called_in_order (w : world) (event : dict) :
  let r := fst (lambda_handler w event) in
  let tr := snd (lambda_handler w event) in
  (tr = [] /\ statusCode r <> 200%Z)
  \/ (exists m sent, tr = [InvokeModel m sent] /\ statusCode r <> 400%Z)
  \/ (exists m sent recipe,
        tr = [InvokeModel m sent; PutItem recipe] /\ r = recipe_response recipe).
Proof.
  cbv zeta. unfold lambda_handler, lambda_handler_try.
  destruct (bind (parse_body event) _) as [ps|e];
    [|left; split; [reflexivity|discriminate]].
  destruct (negb (truthy (p_ingredients ps)));
    [left; split; [reflexivity|discriminate]|].
  pose proof (generate_recipe_trace w (p_ingredients ps) (p_dietary_restrictions ps)
                (p_cuisine_type ps) (p_meal_type ps) (p_difficulty ps)) as Ht.
  pose proof (generate_recipe_ok_trace w (p_ingredients ps)
                (p_dietary_restrictions ps) (p_cuisine_type ps) (p_meal_type ps)
                (p_difficulty ps)) as Hok.
  destruct (generate_recipe _ _ _ _ _ _) as [[recipe|e] tr]; cbn [fst snd] in *.
  - destruct (Hok recipe tr eq_refl) as (m & sent & ->).
    destruct (truthy (p_save_to_db ps)).
    + right. right. exists m, sent, recipe.
      destruct (put_item w recipe); now split.
    + right. left. exists m, sent. split; [reflexivity|discriminate].
  - destruct Ht as [-> | (m & sent & ->)].
    + left. split; [reflexivity|discriminate].
    + right. left. exists m, sent. split; [reflexivity|discriminate].
Qed.

(** A body that does not decode to a JSON object (it is not text, it is
    not JSON, or it is JSON of another kind) is answered with the
    server error, not with the validation error, and no collaborator is
    called. *)
Theorem undecodable_body_is_server_error (w : world) (event : dict) :
  (forall d, parse_body event <> Ok (VDict d)) ->
  lambda_handler w event = (server_error, []).
Proof.
  intros Hn. unfold lambda_handler.
  now destruct (lambda_handler_try_no_dict w event Hn) as [e ->].
Qed.

Lemma texts_raises (items : list value) (e : exn) :
  texts items = Raise e -> e = TypeError.
Proof.
  induction items as [|v items IH]; [discriminate|].
  destruct v; simpl; try congruence.
  destruct (texts items); [discriminate|]. cbn [bind].
  intros H. injection H as <-. now apply IH.
Qed.

Lemma str_join_raises (sep : str) (v : value) (e : exn) :
  str_join sep v = Raise e -> e = TypeError.
Proof.
  destruct v; simpl; try congruence.
  destruct (texts items) eqn:Et; [discriminate|]. cbn [bind].
  intros H. injection H as <-. now apply texts_raises in Et.
Qed.

(** [_build_prompt] raises nothing but the [TypeError] of [join]. *)
Lemma build_prompt_raises (a b c d e : value) (x : exn) :
  _build_prompt a b c d e = Raise x -> x = TypeError.
Proof.
  unfold _build_prompt.
  destruct (str_join _ a) as [i|e0] eqn:Ea; cbn [bind].
  - destruct (truthy b); [|discriminate].
    destruct (str_join _ b) as [r|e1] eqn:Eb; cbn [bind]; [discriminate|].
    intros H. injection H as <-. now apply str_join_raises in Eb.
  - intros H. injection H as <-. now apply str_join_raises in Ea.
Qed.

(** When the prompt cannot be built, which only a [TypeError] of
    [join] can cause, the answer is the server error and the inference
    endpoint is not called. *)
Lemma unbuildable_prompt_is_server_error
    (w : world) (event d : dict) (e : exn) :
  parse_body event = Ok (VDict d) ->
  truthy (p_ingredients (params_of d)) = true ->
  prompt_of (params_of d) = Raise e ->
  e = TypeError /\ lambda_handler w event = (server_error, []).
Proof.
  intros Hb Ht Hp. split.
  - unfold prompt_of in Hp. now apply build_prompt_raises in Hp.
  - unfold lambda_handler. rewrite (lambda_handler_try_dict w event d Hb), Ht.
    cbn [negb]. now rewrite (generate_recipe_without_prompt w _ e Hp).
Qed.

(** When the inference call raises, or its answer has no
    [content[0].text], or that text is not a text holding both braces,
    the answer is the server error; the endpoint was called once and
    the record store is not, whatever [save_to_db] says. *)
Theorem failed_generation_is_server_error
    (w : world) (event d : dict) (prompt : str) :
  parse_body event = Ok (VDict d) ->
  truthy (p_ingredients (params_of d)) = true ->
  prompt_of (params_of d) = Ok prompt ->
  (exists e, reply w prompt = Raise e)
  \/ (exists v, reply w prompt = Ok v /\ ~ braced v) ->
  lambda_handler w event = (server_error, [invocation w prompt]).
Proof.
  intros Hb Ht Hp Hr. unfold lambda_handler.
  rewrite (lambda_handler_try_dict w event d Hb), Ht. cbn [negb].
  rewrite (generate_recipe_with_prompt w _ prompt Hp).
  destruct Hr as [[e ->]|(v & -> & Hv)]; cbn [bind]; [reflexivity|].
  now destruct (parse_unbraced_raises w v Hv) as [e ->].
Qed.

(** When the model's text holds both braces and the slice stays within
    the limits of the interpreter, the request succeeds whether what
    lies between the braces is JSON or not: the body is the recipe
    [normalize] returns, and the record store is given that recipe
    exactly when [save_to_db] is truthy.  When the decoder raises
    anything but [JSONDecodeError] on the slice (the [ValueError] of an
    integer with too many digits, the [RecursionError] of too deep a
    nesting), the answer is the server error and nothing is stored. *)
Theorem braced_reply_is_success
    (w : world) (event d : dict) (prompt text : str) :
  parse_body event = Ok (VDict d) ->
  truthy (p_ingredients (params_of d)) = true ->
  prompt_of (params_of d) = Ok prompt ->
  reply w prompt = Ok (VStr text) ->
  In 123 text -> In 125 text ->
  (within_limits SliceDecode (json_slice text) ->
   exists recipe,
     normalize w text = Ok (VDict recipe)
     /\ dict_get recipe (py "id") = Some (VStr (fresh_id w))
     /\ dict_get recipe (py "created_at") = Some (VStr (timestamp w))
     /\ dict_get recipe (py "source") = Some (VStr (py "ai_generated"))
     /\ lambda_handler w event
        = (recipe_response (VDict recipe),
           invocation w prompt
           :: (if truthy (p_save_to_db (params_of d))
               then [PutItem (VDict recipe)] else [])))
  /\ (forall e,
        json_loads SliceDecode (json_slice text) = Raise e ->
        e <> JSONDecodeError ->
        lambda_handler w event = (server_error, [invocation w prompt])).
Proof.
  intros Hb Ht Hp Hr H1 H2.
  assert (E : lambda_handler w event
              = match normalize w text with
                | Ok recipe =>
                    (recipe_response recipe,
                     if truthy (p_save_to_db (params_of d))
                     then [invocation w prompt] ++ [PutItem recipe]
                     else [invocation w prompt])
                | Raise _ => (server_error, [invocation w prompt])
                end).
  { unfold lambda_handler.
    rewrite (lambda_handler_try_dict w event d Hb), Ht. cbn [negb].
    rewrite (generate_recipe_with_prompt w _ prompt Hp), Hr. cbn [bind].
    fold (normalize w text). now destruct (normalize w text). }
  split.
  - intros Hl.
    destruct (normalize_returns_within w text H1 H2 Hl) as [(d0 & _ & Hn)|[_ Hn]];
      rewrite E, Hn.
    + exists (stamp w d0).
      repeat split; auto using stamp_id, stamp_created_at, stamp_source.
      now destruct (truthy (p_save_to_db _)).
    + eexists. split; [reflexivity|]. repeat split.
      now destruct (truthy (p_save_to_db _)).
  - intros e He Hne. rewrite E, (normalize_outcome w text H1 H2), He.
    destruct e; try reflexivity. now destruct Hne.
Qed.

Lemma texts_non_text (items : list value) (v : value) :
  In v items -> (forall s, v <> VStr s) -> texts items = Raise TypeError.
Proof.
  intros Hin Hv. induction items as [|x items IH]; [destruct Hin|].
  destruct Hin as [->|Hin].
  - destruct v; try reflexivity. now destruct (Hv s).
  - destruct x; try reflexivity. simpl. now rewrite (IH Hin).
Qed.

(** A list of ingredients or of dietary restrictions with an item that
    is not text (a number, say) is answered with the server error, not
    with the validation error, and the inference endpoint is not
    called. *)
Theorem non_text_item_is_server_error
    (w : world) (event d : dict) (items : list value) :
  parse_body event = Ok (VDict d) ->
  truthy (p_ingredients (params_of d)) = true ->
  dict_get d (py "ingredients") = Some (VList items)
  \/ dict_get d (py "dietary_restrictions") = Some (VList items) ->
  (exists v, In v items /\ forall s, v <> VStr s) ->
  lambda_handler w event = (server_error, []).
Proof.
  intros Hb Ht Hk (v & Hin & Hv).
  assert (Hx : texts items = Raise TypeError) by exact (texts_non_text _ _ Hin Hv).
  assert (Hp : prompt_of (params_of d) = Raise TypeError).
  { unfold prompt_of, _build_prompt, params_of.
    cbn [p_ingredients p_dietary_restrictions p_cuisine_type p_meal_type
         p_difficulty].
    destruct Hk as [Hk|Hk].
    - replace (dict_get_default d (py "ingredients") (VList []))
        with (VList items) by (unfold dict_get_default; now rewrite Hk).
      cbn [str_join]. now rewrite Hx.
    - replace (dict_get_default d (py "dietary_restrictions") (VList []))
        with (VList items) by (unfold dict_get_default; now rewrite Hk).
      destruct (str_join _ (dict_get_default d (py "ingredients") _)) as [i|e] eqn:Ei.
      + cbn [bind str_join]. rewrite Hx.
        destruct items as [|x items]; [destruct Hin|]. reflexivity.
      + apply str_join_raises in Ei. now subst e. }
  now apply (unbuildable_prompt_is_server_error w event d TypeError Hb Ht Hp).
Qed.

Lemma startswith_app_r (x a b : str) :
  startswith x a = true -> startswith x (a ++ b) = true.
Proof.
  revert a; induction x as [|c x IH]; intros [|c' a]; simpl; try congruence.
  intros H. apply andb_true_iff in H as [-> H]. simpl. now apply IH.
Qed.

Lemma startswith_line (a b r : str) (c : N) :
  startswith (a ++ b ++ [c]) ((a ++ b) ++ c :: r) = true.
Proof.
  replace ((a ++ b) ++ c :: r) with ((a ++ b ++ [c]) ++ r)
    by (rewrite <- !app_assoc; reflexivity).
  apply startswith_app.
Qed.

(** Whatever the types of the arguments, a prompt that is built begins
    with the opening sentence followed by the joined ingredients and a
    line feed, states the difficulty on a line of its own and ends with
    the complete closing part. *)
Theorem prompt_frame
    (ingredients dietary_restrictions cuisine_type meal_type difficulty : value)
    (prompt : str) :
  _build_prompt ingredients dietary_restrictions cuisine_type meal_type difficulty
  = Ok prompt ->
  (exists joined,
     str_join (py ", ") ingredients = Ok joined
     /\ startswith (opening_line ++ joined ++ [nl]) prompt = true)
  /\ contains ([nl] ++ difficulty_label ++ format difficulty ++ [nl]) prompt
  /\ exists front, prompt = front ++ prompt_footer.
Proof.
  unfold _build_prompt.
  destruct (str_join _ ingredients) as [i|e]; [|discriminate]. cbn [bind].
  set (head := unlines _).
  assert (Hs : startswith (opening_line ++ i ++ [nl]) head = true).
  { unfold head. rewrite unlines_cons. apply startswith_line. }
  assert (Hd : contains ([nl] ++ difficulty_label ++ format difficulty ++ [nl]) head).
  { exists ((opening_line ++ i) ++ nl :: py "" ++ nl :: py "Requirements:"), [].
    unfold head. rewrite !unlines_cons. cbn [unlines map concat].
    repeat (rewrite <- app_assoc || rewrite <- app_comm_cons).
    rewrite ?app_nil_r. reflexivity. }
  clearbody head.
  assert (F : forall front,
             startswith (opening_line ++ i ++ [nl]) front = true ->
             contains ([nl] ++ difficulty_label ++ format difficulty ++ [nl]) front ->
             Ok (front ++ prompt_footer) = Ok prompt ->
             (exists joined,
                Ok i = Ok joined
                /\ startswith (opening_line ++ joined ++ [nl]) prompt = true)
             /\ contains ([nl] ++ difficulty_label ++ format difficulty ++ [nl]) prompt
             /\ exists front0, prompt = front0 ++ prompt_footer).
  { intros front H1 H2 H. injection H as <-.
    split; [exists i; split; [reflexivity|now apply startswith_app_r]|].
    split; [now apply contains_app_r|now exists front]. }
  destruct (truthy dietary_restrictions).
  - destruct (str_join _ dietary_restrictions) as [r|e]; [|discriminate].
    cbn [bind].
    destruct (truthy cuisine_type), (truthy meal_type); cbv zeta; intros H;
      refine (F _ _ _ H);
      repeat (apply startswith_app_r || apply contains_app_r); assumption.
  - cbn [bind].
    destruct (truthy cuisine_type), (truthy meal_type); cbv zeta; intros H;
      refine (F _ _ _ H);
      repeat (apply startswith_app_r || apply contains_app_r); assumption.
Qed.

(** For a body whose fields have the types of the data model, absent
    keys taking their defaults, the prompt the handler has built is the
    prompt of that request. *)
Theorem handler_prompt_is_build (d : dict) (r : RecipeRequest) :
  dict_get d (py "ingredients") = Some (VList (map VStr (ingredients r))) ->
  dict_get d (py "dietary_restrictions")
  = Some (VList (map VStr (dietaryRestrictions r)))
  \/ (dict_get d (py "dietary_restrictions") = None /\ dietaryRestrictions r = []) ->
  dict_get d (py "cuisine_type") = Some (optional_text (cuisineType r))
  \/ (dict_get d (py "cuisine_type") = None /\ cuisineType r = None) ->
  dict_get d (py "meal_type") = Some (optional_text (mealType r))
  \/ (dict_get d (py "meal_type") = None /\ mealType r = None) ->
  dict_get d (py "difficulty") = Some (VStr (difficulty r))
  \/ (dict_get d (py "difficulty") = None /\ difficulty r = py "medium") ->
  prompt_of (params_of d) = build r
  /\ prompt_of (params_of d) = Ok (unlines (prompt_lines r)).
Proof.
  intros Hi Hd Hc Hm Hf.
  assert (E : prompt_of (params_of d) = build r).
  { unfold prompt_of, params_of, build, dict_get_default.
    cbn [p_ingredients p_dietary_restrictions p_cuisine_type p_meal_type
         p_difficulty].
    rewrite Hi.
    destruct Hd as [-> | [-> ->]], Hc as [-> | [-> ->]], Hm as [-> | [-> ->]],
             Hf as [-> | [-> ->]]; reflexivity. }
  split; [exact E|]. rewrite E. apply build_lines.
Qed.

Lemma has_key_in (d : dict) (k : str) :
  has_key d k = true <-> In k (map fst d).
Proof.
  unfold has_key. rewrite existsb_exists, in_map_iff. split.
  - intros (kv & Hin & E). apply str_eqb_eq in E. now exists kv.
  - intros (kv & E & Hin). exists kv. split; [exact Hin|]. now apply str_eqb_eq.
Qed.

Lemma keys_dict_set (d : dict) (k : str) (v : value) :
  map fst (dict_set d k v)
  = if has_key d k then map fst d else map fst d ++ [k].
Proof.
  induction d as [|[k0 v0] d IH]; [reflexivity|].
  unfold has_key in *. cbn [dict_set existsb fst].
  destruct (str_eqb k0 k); cbn [orb map fst]; [reflexivity|].
  rewrite IH. now destruct (existsb _ d).
Qed.

Lemma has_key_dict_set (d : dict) (k k' : str) (v : value) :
  has_key (dict_set d k v) k' = has_key d k' || str_eqb k k'.
Proof.
  induction d as [|[k0 v0] d IH].
  - unfold has_key. simpl. now rewrite orb_false_r.
  - unfold has_key in *. cbn [dict_set existsb fst].
    destruct (str_eqb k0 k) eqn:E; cbn [existsb fst].
    + apply str_eqb_eq in E. subst k0.
      destruct (str_eqb k k'); [reflexivity|]. simpl. now rewrite orb_false_r.
    + now rewrite IH, orb_assoc.
Qed.

Lemma nodup_dict_set (d : dict) (k : str) (v : value) :
  NoDup (map fst d) -> NoDup (map fst (dict_set d k v)).
Proof.
  intros H. rewrite keys_dict_set. destruct (has_key d k) eqn:E; [exact H|].
  apply NoDup_app; [exact H|repeat constructor; intros []|].
  intros a Ha [<-|[]]. apply has_key_in in Ha. congruence.
Qed.

Lemma nodup_dict_of_pairs (ps : list (str * value)) :
  NoDup (map fst (dict_of_pairs ps)).
Proof.
  unfold dict_of_pairs.
  assert (G : forall acc, NoDup (map fst acc) ->
                NoDup (map fst (fold_left
                                  (fun d kv => dict_set d (fst kv) (snd kv)) ps acc))).
  { induction ps as [|kv ps IH]; intros acc Ha; [exact Ha|].
    simpl. apply IH. now apply nodup_dict_set. }
  apply G. constructor.
Qed.

(** The three assignments keep every decoded field where it was and
    append, in the order [id], [created_at], [source], the keys that were
    absent; nothing is dropped, at most three keys are added, and keys
    stay distinct. *)
Theorem stamp_keeps_fields (w : world) (d : dict) :
  map fst (stamp w d)
  = map fst d ++ missing_keys d [py "id"; py "created_at"; py "source"]
  /\ (length d <= length (stamp w d) <= length d + 3)%nat
  /\ (NoDup (map fst d) -> NoDup (map fst (stamp w d))).
Proof.
  assert (K : map fst (stamp w d)
              = map fst d ++ missing_keys d [py "id"; py "created_at"; py "source"]).
  { unfold stamp, missing_keys. rewrite !keys_dict_set, !has_key_dict_set.
    change (str_eqb (py "id") (py "created_at")) with false.
    change (str_eqb (py "id") (py "source")) with false.
    change (str_eqb (py "created_at") (py "source")) with false.
    rewrite !orb_false_r. cbn [filter].
    destruct (has_key d (py "id")), (has_key d (py "created_at")),
             (has_key d (py "source")); cbn [negb app];
      rewrite <- ?app_assoc, ?app_nil_r; reflexivity. }
  split; [exact K|]. split.
  - rewrite <- (length_map fst (stamp w d)), K, length_app, length_map.
    unfold missing_keys. cbn [filter].
    destruct (negb _), (negb _), (negb _); simpl; lia.
  - intros H. unfold stamp. now repeat apply nodup_dict_set.
Qed.

(** Text that begins with an opening brace decodes, if at all, to a
    dict built from key-value pairs, so its keys are distinct. *)
Lemma json_loads_brace_nodup (site : call_site) (m : str) (d : dict) :
  json_loads site (123 :: m) = Ok (VDict d) -> NoDup (map fst d).
Proof.
  unfold json_loads, json_decode.
  change (startswith [65279] (123 :: m)) with false.
  change (skip_ws (123 :: m)) with (123 :: m).
  cbn [scan_once]. change (123 =? 34) with false. change (123 =? 123) with true.
  cbv iota.
  intros H.
  destruct (skip_ws m) as [|c1 r1]; [discriminate|].
  destruct (c1 =? 125).
  { destruct (skip_ws r1); [|discriminate]. injection H as <-. constructor. }
  destruct (c1 =? 34); [|discriminate].
  destruct (scan_members _ _ _ _) as [ps r2|e|]; try discriminate.
  destruct (skip_ws r2); [|discriminate]. injection H as <-.
  apply nodup_dict_of_pairs.
Qed.

Lemma fallback_keys_nodup : NoDup fallback_keys.
Proof.
  unfold fallback_keys.
  repeat (constructor; [vm_compute; intuition discriminate|]).
  constructor.
Qed.

(** Whatever [_parse_recipe_response] returns was made from a text, is
    a dict with pairwise distinct keys, and carries the generated id,
    the timestamp and the fixed source. *)
Theorem returned_recipe_invariant (w : world) (response_text recipe : value) :
  _parse_recipe_response w response_text = Ok recipe ->
  exists text d,
    response_text = VStr text /\ recipe = VDict d
    /\ In 123 text /\ In 125 text
    /\ NoDup (map fst d)
    /\ dict_get d (py "id") = Some (VStr (fresh_id w))
    /\ dict_get d (py "created_at") = Some (VStr (timestamp w))
    /\ dict_get d (py "source") = Some (VStr (py "ai_generated")).
Proof.
  intros H.
  destruct response_text as [| | | |text| |]; try discriminate H.
  fold (normalize w text) in H.
  destruct (in_dec N.eq_dec 123 text) as [H1|H1];
    [|rewrite normalize_no_braces in H by (now left); discriminate H].
  destruct (in_dec N.eq_dec 125 text) as [H2|H2];
    [|rewrite normalize_no_braces in H by (now right); discriminate H].
  destruct (normalize_returns w text H1 H2)
    as [(d0 & Hd & Hn)|[[_ Hn]|(e & _ & _ & Hn)]];
    rewrite Hn in H; [injection H as <-|injection H as <-|discriminate].
  - exists text, (stamp w d0).
    repeat split; auto using stamp_id, stamp_created_at, stamp_source.
    unfold stamp. repeat apply nodup_dict_set.
    destruct (json_slice_shape text H1 H2) as [E|[m E]]; rewrite E in Hd.
    + rewrite json_loads_empty in Hd. discriminate.
    + now apply json_loads_brace_nodup in Hd.
  - eexists text, _. split; [reflexivity|]. split; [reflexivity|].
    repeat split; auto. apply fallback_keys_nodup.
Qed.

End Program.

(* ===================================================================== *)
(** ** The statements at concrete inputs *)
(* ===================================================================== *)

(** The empty text has no braces: [normalize] raises and returns no
    recipe. *)
Lemma normalize_empty_text_raises :
  normalize sample_max_str_digits sample_headroom sample_world [] = Raise ValueError
  /\ ~ exists recipe, normalize sample_max_str_digits sample_headroom sample_world [] = Ok recipe.
Proof.
  split; [reflexivity|]. intros [recipe H]. vm_compute in H. discriminate.
Qed.


(** A cuisine given as the empty text leaves no cuisine line in the
    prompt. *)
Lemma empty_cuisine_type_has_no_line :
  cuisineType empty_cuisine_request <> None
  /\ exists prompt,
       build sample_float_is_zero sample_py_format empty_cuisine_request = Ok prompt
       /\ has_line cuisine_label prompt = false.
Proof.
  split; [discriminate|]. eexists. split; vm_compute; reflexivity.
Qed.

(** A line feed inside an ingredient can bring a labelled line into the
    prompt although no meal type was given. *)
Example injected_label_is_a_line :
  mealType two_line_request = None
  /\ exists prompt,
       build sample_float_is_zero sample_py_format two_line_request = Ok prompt
       /\ has_line meal_label prompt = true.
Proof.
  split; [reflexivity|]. eexists. split; vm_compute; reflexivity.
Qed.

(** An integer of 4301 digits between the braces: [json.loads] raises
    [ValueError], which is re-raised; and with room for two containers
    only, a third level of nesting raises [RecursionError]. *)
Example limits_are_reraised :
  normalize sample_max_str_digits sample_headroom sample_world
    (pyq "{'a':" ++ repeat 49 4301 ++ py "}")
  = Raise ValueError
  /\ normalize sample_max_str_digits (fun _ => 1%nat) sample_world
       (pyq "{'a':[[1]]}")
     = Raise RecursionError.
Proof. split; vm_compute; reflexivity. Qed.


Ltac in_text := vm_compute; tauto.

Ltac limits :=
  split; [vm_compute; reflexivity | apply Nat.leb_le; vm_compute; reflexivity].

Lemma normalize_returns_recipe_iff_braces_witness :
  (exists recipe id created,
     normalize sample_max_str_digits sample_headroom sample_world (py "{oops}")
     = Ok (VDict recipe)
     /\ dict_get recipe (py "id") = Some (VStr id) /\ id <> []
     /\ dict_get recipe (py "created_at") = Some (VStr created) /\ created <> [])
  /\ normalize sample_max_str_digits sample_headroom sample_world (py "no braces")
     = Raise ValueError.
Proof.
  split.
  - apply (proj1 (proj2 (normalize_returns_recipe_iff_braces
                           sample_float_is_zero sample_float_dumps
                           sample_max_str_digits sample_headroom
                           sample_world (py "{oops}"))));
      [in_text | in_text | limits].
  - apply (proj2 (proj2 (normalize_returns_recipe_iff_braces
                           sample_float_is_zero sample_float_dumps
                           sample_max_str_digits sample_headroom
                           sample_world (py "no braces")))).
    left. vm_compute. intuition discriminate.
Defined.


Lemma parsed_fields_kept_and_stamped_witness :
  exists d,
    normalize sample_max_str_digits sample_headroom sample_world (pyq "sure: {'title':'Soup','id':'x1'}")
    = Ok (VDict (stamp sample_world d))
    /\ dict_get (stamp sample_world d) (py "id") = Some (VStr (fresh_id sample_world))
    /\ dict_get (stamp sample_world d) (py "title") = Some (VStr (py "Soup")).
Proof.
  destruct (proj1 (parsed_fields_kept_and_stamped sample_float_is_zero sample_float_dumps
              sample_max_str_digits sample_headroom sample_world)
              (pyq "sure: {'title':'Soup','id':'x1'}")
              (VDict [(py "title", VStr (py "Soup")); (py "id", VStr (py "x1"))]))
    as (d & Hv & Hn & Hid & _ & _ & Hk);
    [in_text | in_text | vm_compute; reflexivity |].
  exists d. split; [exact Hn|]. split; [exact Hid|].
  rewrite Hk by (intros H; vm_compute in H; discriminate).
  injection Hv as <-. reflexivity.
Defined.

Lemma slice_spans_first_to_last_witness :
  (exists i j : nat,
     find 123 (py "a {b} c {d} e") = Z.of_nat i
     /\ rfind 125 (py "a {b} c {d} e") = Z.of_nat j
     /\ i = 2%nat /\ j = 10%nat)
  /\ json_slice (py "a " ++ 123 :: py "b} c {d" ++ 125 :: py " e") = py "{b} c {d}".
Proof.
  split.
  - destruct (proj1 (slice_spans_first_to_last sample_max_str_digits sample_headroom sample_world) (py "a {b} c {d} e"))
      as (i & j & Hi & Hj & _); [in_text | in_text |].
    assert (F : find 123 (py "a {b} c {d} e") = 2%Z) by (vm_compute; reflexivity).
    assert (R : rfind 125 (py "a {b} c {d} e") = 10%Z) by (vm_compute; reflexivity).
    exists i, j. split; [exact Hi|]. split; [exact Hj|]. split; lia.
  - apply (proj1 (proj2 (slice_spans_first_to_last sample_max_str_digits sample_headroom sample_world))
             (py "a ") (py "b} c {d") (py " e"));
      vm_compute; intuition discriminate.
Defined.

Lemma reversed_braces_fall_back_witness :
  json_slice (py "a } b { c") = []
  /\ normalize sample_max_str_digits sample_headroom sample_world (py "a } b { c")
     = Ok (_create_fallback_recipe sample_world (VStr (py "a } b { c"))).
Proof.
  destruct (reversed_braces_fall_back sample_max_str_digits sample_headroom sample_world (py "a } b { c"))
    as (_ & _ & Hs & _ & Hn);
    [in_text | in_text | vm_compute; discriminate |].
  split; [exact Hs|exact Hn].
Defined.

Lemma prompt_contents_witness :
  exists prompt,
    build sample_float_is_zero sample_py_format sample_request = Ok prompt
    /\ contains (py "- Cuisine type: thai" ++ [nl]) prompt
    /\ has_line cuisine_label prompt = true
    /\ has_line meal_label prompt = false.
Proof.
  destruct (prompt_contents sample_float_is_zero sample_float_dumps
              sample_py_format sample_request)
    as (prompt & Hb & _ & _ & _ & _ & Hc & _ & Hl).
  exists prompt. split; [exact Hb|].
  split; [apply (Hc (py "thai")); [reflexivity|discriminate]|].
  destruct Hl as (_ & Hcl & Hml).
  { unfold single_line_request, sample_request; cbn [ingredients
      dietaryRestrictions cuisineType mealType difficulty].
    repeat split.
    - repeat constructor; apply no_newline_b_sound; reflexivity.
    - repeat constructor; apply no_newline_b_sound; reflexivity.
    - intros c H. injection H as <-. apply no_newline_b_sound; reflexivity.
    - intros m H. discriminate.
    - apply no_newline_b_sound; reflexivity. }
  split.
  - apply Hcl. exists (py "thai"). split; [reflexivity|discriminate].
  - destruct (has_line meal_label prompt); [|reflexivity].
    destruct (proj1 Hml eq_refl) as (m & Hm & _). discriminate.
Defined.


Lemma persistence_is_best_effort_witness :
  let recipe :=
    VDict (stamp sample_world
             [(py "title", VStr (py "Pasta")); (py "servings", VInt 2)]) in
  put_item sample_world recipe = Raise (ServiceError 500)
  /\ fst (lambda_handler sample_float_is_zero sample_float_dumps sample_py_format
            sample_max_str_digits sample_headroom sample_world saved_event)
     = recipe_response sample_float_dumps recipe
  /\ forall item,
       ~ In (PutItem item)
            (snd (lambda_handler sample_float_is_zero sample_float_dumps
                    sample_py_format sample_max_str_digits sample_headroom sample_world unsaved_event)).
Proof.
  cbv zeta. split; [reflexivity|]. split.
  - apply (proj1 (proj2 (persistence_is_best_effort sample_float_is_zero
                           sample_float_dumps sample_py_format sample_max_str_digits sample_headroom sample_world
                           saved_event))
             (VDict [(py "ingredients", VList [VStr (py "egg"); VStr (py "rice")])])
             {| p_ingredients := VList [VStr (py "egg"); VStr (py "rice")];
                p_dietary_restrictions := VList [];
                p_cuisine_type := VNone;
                p_meal_type := VNone;
                p_difficulty := VStr (py "medium");
                p_save_to_db := VBool true |}
             (VDict (stamp sample_world
                       [(py "title", VStr (py "Pasta")); (py "servings", VInt 2)]))
             (snd (generate_recipe sample_float_is_zero sample_float_dumps
                     sample_py_format sample_max_str_digits sample_headroom sample_world
                     (VList [VStr (py "egg"); VStr (py "rice")])
                     (VList []) VNone VNone (VStr (py "medium")))));
      vm_compute; reflexivity.
  - apply (proj2 (proj2 (persistence_is_best_effort sample_float_is_zero
                           sample_float_dumps sample_py_format sample_max_str_digits sample_headroom sample_world
                           unsaved_event))
             [(py "ingredients", VList [VStr (py "egg"); VStr (py "rice")]);
              (py "save_to_db", VBool false)]);
      vm_compute; reflexivity.
Defined.

Lemma responses_are_uniform_witness :
  statusCode (fst (lambda_handler sample_float_is_zero sample_float_dumps
                     sample_py_format sample_max_str_digits sample_headroom sample_world empty_event)) = 400%Z
  /\ body (fst (lambda_handler sample_float_is_zero sample_float_dumps
                  sample_py_format sample_max_str_digits sample_headroom sample_world empty_event))
     = pyq "{'error': 'Ingredients list is required'}".
Proof.
  split; [vm_compute; reflexivity|].
  apply (proj1 (proj2 (proj2 (responses_are_uniform sample_float_is_zero
                                sample_float_dumps sample_py_format
                                sample_max_str_digits sample_headroom sample_world empty_event)))).
  vm_compute. reflexivity.
Defined.

(* ===================================================================== *)
(** ** The further properties at concrete inputs *)
(* ===================================================================== *)

(** Ingredients given as the empty text are a validation error. *)
Lemma validation_error_iff_witness :
  statusCode
    (fst (lambda_handler sample_float_is_zero sample_float_dumps sample_py_format
            sample_max_str_digits sample_headroom sample_world [(py "body", VStr (pyq "{'ingredients': ''}"))]))
  = 400%Z.
Proof.
  apply (proj2 (proj1 (validation_error_iff sample_float_is_zero
                         sample_float_dumps sample_py_format sample_max_str_digits sample_headroom sample_world
                         [(py "body", VStr (pyq "{'ingredients': ''}"))]))).
  exists [(py "ingredients", VStr [])]. split; vm_compute; reflexivity.
Defined.

(** A [null] body and a body that is a JSON array are server errors. *)
Lemma undecodable_body_is_server_error_witness :
  lambda_handler sample_float_is_zero sample_float_dumps sample_py_format
    sample_max_str_digits sample_headroom sample_world null_body_event
  = (server_error sample_float_dumps, [])
  /\ lambda_handler sample_float_is_zero sample_float_dumps sample_py_format
       sample_max_str_digits sample_headroom sample_world array_body_event
     = (server_error sample_float_dumps, []).
Proof.
  split;
    apply (undecodable_body_is_server_error sample_float_is_zero
             sample_float_dumps sample_py_format sample_max_str_digits sample_headroom sample_world);
    intros d H; vm_compute in H; discriminate.
Defined.

(** Ingredients that are numbers are a server error. *)
Lemma non_text_item_is_server_error_witness :
  lambda_handler sample_float_is_zero sample_float_dumps sample_py_format
    sample_max_str_digits sample_headroom sample_world numeric_ingredients_event
  = (server_error sample_float_dumps, []).
Proof.
  apply (non_text_item_is_server_error sample_float_is_zero sample_float_dumps
           sample_py_format sample_max_str_digits sample_headroom sample_world numeric_ingredients_event
           [(py "ingredients", VList [VInt 1; VInt 2])] [VInt 1; VInt 2]).
  - vm_compute. reflexivity.
  - vm_compute. reflexivity.
  - left. vm_compute. reflexivity.
  - exists (VInt 1). split; [now left|discriminate].
Defined.

(** A model that answers in prose, without braces: server error, one
    call of the endpoint, nothing stored. *)
Lemma failed_generation_is_server_error_witness :
  lambda_handler sample_float_is_zero sample_float_dumps sample_py_format
    sample_max_str_digits sample_headroom prose_world saved_event
  = (server_error sample_float_dumps,
     [invocation sample_float_dumps prose_world saved_event_prompt]).
Proof.
  apply (failed_generation_is_server_error sample_float_is_zero
           sample_float_dumps sample_py_format sample_max_str_digits sample_headroom prose_world saved_event
           [(py "ingredients", VList [VStr (py "egg"); VStr (py "rice")])]
           saved_event_prompt).
  - vm_compute. reflexivity.
  - vm_compute. reflexivity.
  - vm_compute. reflexivity.
  - right. exists (VStr (py "Sorry, no recipe today.")).
    split; [vm_compute; reflexivity|].
    intros (text & E & H1 & _). injection E as <-.
    vm_compute in H1. intuition discriminate.
Defined.

(** A model that answers with braces around something that is not
    JSON: success with the fallback recipe, which is stored. *)
Lemma braced_reply_is_success_witness :
  exists recipe,
    normalize sample_max_str_digits sample_headroom sloppy_world
      (py "{title: Pasta}") = Ok (VDict recipe)
    /\ lambda_handler sample_float_is_zero sample_float_dumps sample_py_format
         sample_max_str_digits sample_headroom sloppy_world saved_event
       = (recipe_response sample_float_dumps (VDict recipe),
          [invocation sample_float_dumps sloppy_world saved_event_prompt;
           PutItem (VDict recipe)]).
Proof.
  destruct (braced_reply_is_success sample_float_is_zero sample_float_dumps
              sample_py_format sample_max_str_digits sample_headroom
              sloppy_world saved_event
              [(py "ingredients", VList [VStr (py "egg"); VStr (py "rice")])]
              saved_event_prompt (py "{title: Pasta}"))
    as (Hs & _).
  - vm_compute. reflexivity.
  - vm_compute. reflexivity.
  - vm_compute. reflexivity.
  - vm_compute. reflexivity.
  - vm_compute. tauto.
  - vm_compute. tauto.
  - destruct Hs as (recipe & Hn & _ & _ & _ & Hh); [limits|].
    exists recipe. split; [exact Hn|exact Hh].
Defined.

(** A decoded recipe that already has an [id]: two keys are added. *)
Lemma stamp_keeps_fields_witness :
  map fst (stamp sample_world [(py "title", VStr (py "Soup")); (py "id", VInt 7)])
  = [py "title"; py "id"; py "created_at"; py "source"]
  /\ NoDup (map fst (stamp sample_world
                       [(py "title", VStr (py "Soup")); (py "id", VInt 7)])).
Proof.
  destruct (stamp_keeps_fields sample_world
              [(py "title", VStr (py "Soup")); (py "id", VInt 7)])
    as (K & _ & N).
  split; [exact K|]. apply N.
  repeat (constructor; [vm_compute; intuition discriminate|]). constructor.
Defined.

Lemma returned_recipe_invariant_witness :
  exists text d,
    VStr (py "{oops}") = VStr text
    /\ _create_fallback_recipe sample_world (VStr (py "{oops}")) = VDict d
    /\ NoDup (map fst d)
    /\ dict_get d (py "source") = Some (VStr (py "ai_generated")).
Proof.
  destruct (returned_recipe_invariant sample_float_is_zero sample_float_dumps
              sample_max_str_digits sample_headroom sample_world (VStr (py "{oops}"))
              (_create_fallback_recipe sample_world (VStr (py "{oops}"))))
    as (text & d & E1 & E2 & _ & _ & N & _ & _ & S).
  - vm_compute. reflexivity.
  - exists text, d. repeat split; assumption.
Defined.

(** A prompt built from arguments that are not all text. *)
Lemma prompt_frame_witness :
  exists prompt,
    _build_prompt sample_float_is_zero sample_py_format
      (VStr (py "egg")) VNone (VInt 3) (VStr (py "lunch")) (VBool true) = Ok prompt
    /\ (exists joined,
          str_join (py ", ") (VStr (py "egg")) = Ok joined
          /\ startswith (opening_line ++ joined ++ [nl]) prompt = true)
    /\ exists front, prompt = front ++ prompt_footer.
Proof.
  eexists. split; [reflexivity|].
  destruct (prompt_frame sample_float_is_zero sample_py_format
              (VStr (py "egg")) VNone (VInt 3) (VStr (py "lunch")) (VBool true)
              _ eq_refl) as (Hs & _ & Hf).
  split; [exact Hs|exact Hf].
Defined.

(** A body with ingredients and a cuisine only: the other fields take
    their defaults. *)
Lemma handler_prompt_is_build_witness :
  let r := {| ingredients := [py "egg"; py "rice"];
              dietaryRestrictions := [];
              cuisineType := Some (py "thai");
              mealType := None;
              difficulty := py "medium" |} in
  prompt_of sample_float_is_zero sample_py_format
    (params_of [(py "ingredients", VList [VStr (py "egg"); VStr (py "rice")]);
                (py "cuisine_type", VStr (py "thai"))])
  = build sample_float_is_zero sample_py_format r.
Proof.
  cbv zeta.
  refine (proj1 (handler_prompt_is_build sample_float_is_zero sample_py_format
                   [(py "ingredients", VList [VStr (py "egg"); VStr (py "rice")]);
                    (py "cuisine_type", VStr (py "thai"))]
                   {| ingredients := [py "egg"; py "rice"];
                      dietaryRestrictions := [];
                      cuisineType := Some (py "thai");
                      mealType := None;
                      difficulty := py "medium" |} _ _ _ _ _)).
  - vm_compute. reflexivity.
  - right. split; vm_compute; reflexivity.
  - left. vm_compute. reflexivity.
  - right. split; vm_compute; reflexivity.
  - right. split; vm_compute; reflexivity.
Defined.
